(** * garak: the LangChain Serve generator adapter

    A shallow embedding of [garak/generators/langchain_serve.py] and of the
    library behaviour it relies on ([urllib.parse.urlparse], [requests.post],
    [Response.raise_for_status], [Response.json], [logging.error],
    [os.getenv]), followed by the properties of the adapter stated in the
    specification.

    Conventions.
    - A Python call either returns a value or raises: [outcome A].
    - Side effects (the log, the instance under construction) are threaded
      through the state monad [Py].
    - An instance attribute that has not been assigned yet is [None] in the
      record [LangChainServeLLMGenerator]; reading it raises
      [AttributeError] unless the class provides the attribute. *)

From stdpp Require Import gmap strings list pretty.
From Stdlib Require Import Ascii String ZArith Lia.

Local Open Scope string_scope.
Local Open Scope Z_scope.
Local Set Warnings "-register-all".

(** ** Python values and exceptions *)

(** The values [json.loads] can produce, which are also the values
    [_call_model] can return. A float is kept as its lexeme: the adapter
    never computes with it. *)
Inductive value : Type :=
  | VNone
  | VBool (b : bool)
  | VInt (n : Z)
  | VFloat (lexeme : string)
  | VStr (s : string)
  | VList (items : list value)
  | VDict (entries : gmap string value).

(** The exception classes that occur in the adapter and in the libraries it
    calls. Every class here derives from [Exception]; asynchronous
    [BaseException] signals are outside the model. *)
Inductive exn_class : Type :=
  | Exception
  | ValueError
  | TypeError
  | LookupError
  | KeyError
  | AttributeError
  | NameError
  | UnboundLocalError
  | OSError
  | JSONDecodeError            (* json.JSONDecodeError *)
  | RequestException           (* requests.exceptions.RequestException *)
  | HTTPError                  (* requests.exceptions.HTTPError *)
  | ConnectionError            (* requests.exceptions.ConnectionError *)
  | Timeout                    (* requests.exceptions.Timeout *)
  | TooManyRedirects           (* requests.exceptions.TooManyRedirects *)
  | InvalidJSONError           (* requests.exceptions.InvalidJSONError *)
  | RequestsJSONDecodeError.   (* requests.exceptions.JSONDecodeError *)

#[global] Instance exn_class_eq_dec : EqDecision exn_class.
Proof. solve_decision. Defined.

(** Method resolution order of each class, the class itself first. *)
Definition mro (c : exn_class) : list exn_class :=
  match c with
  | Exception => [Exception]
  | ValueError => [ValueError; Exception]
  | TypeError => [TypeError; Exception]
  | LookupError => [LookupError; Exception]
  | KeyError => [KeyError; LookupError; Exception]
  | AttributeError => [AttributeError; Exception]
  | NameError => [NameError; Exception]
  | UnboundLocalError => [UnboundLocalError; NameError; Exception]
  | OSError => [OSError; Exception]
  | JSONDecodeError => [JSONDecodeError; ValueError; Exception]
  | RequestException => [RequestException; OSError; Exception]
  | HTTPError => [HTTPError; RequestException; OSError; Exception]
  | ConnectionError => [ConnectionError; RequestException; OSError; Exception]
  | Timeout => [Timeout; RequestException; OSError; Exception]
  | TooManyRedirects => [TooManyRedirects; RequestException; OSError; Exception]
  | InvalidJSONError => [InvalidJSONError; RequestException; OSError; Exception]
  | RequestsJSONDecodeError =>
      [RequestsJSONDecodeError; InvalidJSONError; RequestException; OSError;
       JSONDecodeError; ValueError; Exception]
  end.

Record exn : Type := mkExn { exn_cls : exn_class; exn_msg : string }.

Definition isinstance (e : exn) (c : exn_class) : bool :=
  bool_decide (c ∈ mro (exn_cls e)).

(** A call returns or raises. *)
Inductive outcome (A : Type) : Type :=
  | Ret (a : A)
  | Exc (e : exn).
Arguments Ret {A} a.
Arguments Exc {A} e.

(** ** Effects *)

(** One constructor per [logging.error] call of the module, carrying the
    values interpolated into its message. *)
Inductive log_event : Type :=
  | LogUrlParsingError (e : exn)
  | LogClientError (prompt : string) (e : exn)
  | LogServerError (prompt : string) (e : exn)
  | LogRequestFailed (e : exn)
  | LogNoOutput (response_data : value)
  | LogJsonDecodeFailed (text : string) (e : exn)
  | LogUnexpected (e : exn).

(** The adapter instance: one field per instance attribute, [None] while the
    attribute is unset. [config_hash_attr] is the instance-level entry that
    would shadow the class attribute [config_hash] if anything assigned it. *)
Record LangChainServeLLMGenerator : Type := mkGenerator {
  name : option string;
  fullname : option string;
  generations : option Z;
  api_endpoint : option string;
  config_hash_attr : option string
}.

(** What [object.__new__] hands to [__init__]. *)
Definition blank : LangChainServeLLMGenerator :=
  {| name := None; fullname := None; generations := None;
     api_endpoint := None; config_hash_attr := None |}.

(** The part of the process a method can see and change: the environment
    variables, the instance [self] refers to, and the log written so far
    (most recent event last). *)
Record state : Type := mkState {
  environ : gmap string string;
  self : LangChainServeLLMGenerator;
  logged : list log_event
}.

Definition Py (A : Type) : Type := state -> outcome A * state.

Definition ret {A} (a : A) : Py A := fun s => (Ret a, s).
Definition raise {A} (e : exn) : Py A := fun s => (Exc e, s).
Definition bind {A B} (m : Py A) (k : A -> Py B) : Py B :=
  fun s => match m s with
           | (Ret a, s') => k a s'
           | (Exc e, s') => (Exc e, s')
           end.
Definition lift {A} (o : outcome A) : Py A := fun s => (o, s).

Notation "x <- m ;; k" := (bind m (fun x => k))
  (at level 62, m at level 50, right associativity).
Notation "m ;;; k" := (bind m (fun _ => k))
  (at level 62, right associativity).

Definition get_self : Py LangChainServeLLMGenerator :=
  fun s => (Ret (self s), s).
Definition put_self (g : LangChainServeLLMGenerator) : Py unit :=
  fun s => (Ret tt, {| environ := environ s; self := g; logged := logged s |}).
(** [logging.error(...)]: one more event at the end of the log. *)
Definition log_append (s : state) (ev : log_event) : state :=
  {| environ := environ s; self := self s; logged := logged s ++ [ev] |}.
Definition logging_error (ev : log_event) : Py unit :=
  fun s => (Ret tt, log_append s ev).
(** [os.getenv(key)]: the value, or Python's [None] when unset. *)
Definition os_getenv (key : string) : Py (option string) :=
  fun s => (Ret (environ s !! key), s).

(** [try: body except Exception-like as e: handler e], where the handler
    decides by [isinstance] which exceptions it takes and re-raises the
    others. State changes made by the body before it raised persist. *)
Definition try_except {A} (body : Py A) (handler : exn -> Py A) : Py A :=
  fun s => match body s with
           | (Ret a, s') => (Ret a, s')
           | (Exc e, s') => handler e s'
           end.

(** ** [urllib.parse] *)

(** [urlparse] as CPython 3.11 defines it, on UTF-8 encoded strings, for the
    default arguments [scheme=''] and [allow_fragments=True]. Two checks that
    need tables this development does not carry are left as parameters: the
    host validation behind [_check_bracketed_host] (a regular expression and
    the [ipaddress] module) and the NFKC comparison [_checknetloc] runs on a
    non-ASCII network location. *)
Module urllib_parse.

Record ParseResult : Type := mkParseResult {
  scheme : string;
  netloc : string;
  path : string;
  params : string;
  query : string;
  fragment : string
}.

(** [s.find(c)], with [None] for Python's [-1]. *)
Fixpoint find (c : ascii) (s : string) : option nat :=
  match s with
  | EmptyString => None
  | String a s' => if Ascii.eqb a c then Some 0%nat else S <$> find c s'
  end.

(** [s.rfind(c)]. *)
Fixpoint rfind (c : ascii) (s : string) : option nat :=
  match s with
  | EmptyString => None
  | String a s' =>
      match rfind c s' with
      | Some i => Some (S i)
      | None => if Ascii.eqb a c then Some 0%nat else None
      end
  end.

(** [c in s] for a one-character [c]. *)
Definition contains (c : ascii) (s : string) : bool :=
  match find c s with Some _ => true | None => false end.

(** [s[:n]] and [s[n:]] for [n >= 0]. *)
Fixpoint str_take (n : nat) (s : string) : string :=
  match n, s with
  | S n', String a s' => String a (str_take n' s')
  | _, _ => EmptyString
  end.

Fixpoint str_drop (n : nat) (s : string) : string :=
  match n, s with
  | S n', String _ s' => str_drop n' s'
  | _, _ => s
  end.

(** [s.find(c, start)]. *)
Definition find_from (c : ascii) (start : nat) (s : string) : option nat :=
  (fun i => (start + i)%nat) <$> find c (str_drop start s).

(** [s.partition(c)]: text before the first [c], whether [c] was found, text
    after it. *)
Definition partition (c : ascii) (s : string) : string * bool * string :=
  match find c s with
  | Some i => (str_take i s, true, str_drop (S i) s)
  | None => (s, false, EmptyString)
  end.

(** [s.rpartition(c)[2]]: the text after the last [c], all of [s] without. *)
Definition rpartition_tail (c : ascii) (s : string) : string :=
  match rfind c s with
  | Some i => str_drop (S i) s
  | None => s
  end.

Definition code (c : ascii) : nat := nat_of_ascii c.

Definition is_ascii_alpha (c : ascii) : bool :=
  ((65 <=? code c) && (code c <=? 90) || (97 <=? code c) && (code c <=? 122))%nat.

Definition is_ascii_digit (c : ascii) : bool :=
  ((48 <=? code c) && (code c <=? 57))%nat.

(** Membership in [scheme_chars]. *)
Definition is_scheme_char (c : ascii) : bool :=
  is_ascii_alpha c || is_ascii_digit c
  || Ascii.eqb c "+" || Ascii.eqb c "-" || Ascii.eqb c ".".

Fixpoint str_forallb (p : ascii -> bool) (s : string) : bool :=
  match s with
  | EmptyString => true
  | String a s' => p a && str_forallb p s'
  end.

Fixpoint str_filter (p : ascii -> bool) (s : string) : string :=
  match s with
  | EmptyString => EmptyString
  | String a s' => if p a then String a (str_filter p s') else str_filter p s'
  end.

Fixpoint str_map (f : ascii -> ascii) (s : string) : string :=
  match s with
  | EmptyString => EmptyString
  | String a s' => String (f a) (str_map f s')
  end.

(** [s.lower()] on a string of scheme characters. *)
Definition lower_char (c : ascii) : ascii :=
  if ((65 <=? code c) && (code c <=? 90))%nat
  then ascii_of_nat (code c + 32) else c.
Definition lower : string -> string := str_map lower_char.

(** [url.lstrip(_WHATWG_C0_CONTROL_OR_SPACE)]. *)
Fixpoint lstrip_c0_or_space (s : string) : string :=
  match s with
  | String a s' => if (code a <=? 32)%nat then lstrip_c0_or_space s' else s
  | EmptyString => EmptyString
  end.

(** Removal of the characters of [_UNSAFE_URL_BYTES_TO_REMOVE]. *)
Definition remove_unsafe : string -> string :=
  str_filter (fun c => negb ((code c =? 9) || (code c =? 13) || (code c =? 10))%nat).

Definition isascii : string -> bool :=
  str_forallb (fun c => (code c <? 128)%nat).

Definition uses_params : list string :=
  [EmptyString; "ftp"; "hdl"; "prospero"; "http"; "imap"; "https"; "shttp"; "rtsp";
   "rtspu"; "sip"; "sips"; "mms"; "sftp"; "tel"].

Definition invalid_ipv6 : exn := mkExn ValueError "Invalid IPv6 URL".

(** [_splitnetloc(url, start)]: the network location ends at the first of
    [/], [?] and [#] after [start], or at the end of [url]. *)
Definition _splitnetloc (url : string) (start : nat) : string * string :=
  let step (delim : nat) (c : ascii) :=
    match find_from c start url with
    | Some wdelim => Nat.min delim wdelim
    | None => delim
    end in
  let delim := foldl step (String.length url) ["/"; "?"; "#"]%char in
  (str_take (delim - start) (str_drop start url), str_drop delim url).

(** [_splitparams(url)]. In the branch without [/], a missing [;] gives
    Python's index [-1], hence the slices [url[:-1]] and [url[0:]]. *)
Definition _splitparams (url : string) : string * string :=
  if contains "/" url then
    match find_from ";" (default 0%nat (rfind "/" url)) url with
    | Some i => (str_take i url, str_drop (S i) url)
    | None => (url, EmptyString)
    end
  else
    match find ";" url with
    | Some i => (str_take i url, str_drop (S i) url)
    | None => (str_take (String.length url - 1) url, url)
    end.

Section parse.
Variable _check_bracketed_host : string -> outcome unit.
Variable nfkc_check : string -> outcome unit.

Definition _checknetloc (netloc : string) : outcome unit :=
  if String.eqb netloc EmptyString || isascii netloc then Ret tt
  else nfkc_check netloc.

Definition _check_bracketed_netloc (netloc : string) : outcome unit :=
  let hostname_and_port := rpartition_tail "@" netloc in
  let '(before_bracket, have_open_br, bracketed) :=
    partition "[" hostname_and_port in
  if have_open_br then
    if negb (String.eqb before_bracket EmptyString) then Exc invalid_ipv6
    else
      let '(hostname, _, port) := partition "]" bracketed in
      if negb (String.eqb port EmptyString) && negb (String.prefix ":" port)
      then Exc invalid_ipv6
      else _check_bracketed_host hostname
  else
    let '(hostname, _, _) := partition ":" hostname_and_port in
    _check_bracketed_host hostname.

(** [urlsplit(url)]; the result carries an empty [params]. *)
Definition urlsplit (url0 : string) : outcome ParseResult :=
  let url := remove_unsafe (lstrip_c0_or_space url0) in
  let '(scheme, url) :=
    match find ":" url, url with
    | Some (S i'), String c _ =>
        if is_ascii_alpha c && str_forallb is_scheme_char (str_take (S i') url)
        then (lower (str_take (S i') url), str_drop (S (S i')) url)
        else (EmptyString, url)
    | _, _ => (EmptyString, url)
    end in
  let after_netloc : outcome (string * string) :=
    if String.eqb (str_take 2 url) "//" then
      let '(netloc, rest) := _splitnetloc url 2 in
      if contains "[" netloc && negb (contains "]" netloc)
         || contains "]" netloc && negb (contains "[" netloc)
      then Exc invalid_ipv6
      else if contains "[" netloc && contains "]" netloc then
        match _check_bracketed_netloc netloc with
        | Ret _ => Ret (netloc, rest)
        | Exc e => Exc e
        end
      else Ret (netloc, rest)
    else Ret (EmptyString, url) in
  match after_netloc with
  | Exc e => Exc e
  | Ret (netloc, url) =>
      let '(url, _, fragment) := partition "#" url in
      let '(url, _, query) := partition "?" url in
      match _checknetloc netloc with
      | Exc e => Exc e
      | Ret _ =>
          Ret {| scheme := scheme; netloc := netloc; path := url;
                 params := EmptyString; query := query;
                 fragment := fragment |}
      end
  end.

(** [urlparse(url)] for a [str] or [None] argument. [_coerce_args] turns
    [None] into the empty string (and the components of the result into
    empty byte strings, which are falsy like empty strings). *)
Definition urlparse (url : option string) : outcome ParseResult :=
  match urlsplit (default EmptyString url) with
  | Exc e => Exc e
  | Ret r =>
      if bool_decide (scheme r ∈ uses_params) && contains ";" (path r) then
        let '(url', params) := _splitparams (path r) in
        Ret {| scheme := scheme r; netloc := netloc r; path := url';
               params := params; query := query r; fragment := fragment r |}
      else Ret r
  end.
End parse.

End urllib_parse.

(** ** [requests] *)

Module requests.

(** The part of a [requests.Response] the adapter reads. [json] is what the
    method [response.json()] does: return the decoded body or raise. *)
Record Response : Type := mkResponse {
  status_code : Z;
  reason : string;
  url : string;
  text : string;
  json : outcome value
}.

(** The arguments of one [requests.post] call. [data] is the document whose
    [json.dumps] serialisation goes on the wire. *)
Record Request : Type := mkRequest {
  req_url : string;
  req_headers : list (string * string);
  req_data : value
}.

(** What one [requests.post] call does: raise, or return a response. *)
Inductive post_result : Type :=
  | Raises (e : exn)
  | Responds (r : Response).

Definition http_error (kind : string) (r : Response) : exn :=
  mkExn HTTPError
    (pretty (status_code r) +:+ " " +:+ kind +:+ " Error: " +:+ reason r
     +:+ " for url: " +:+ url r).

(** [Response.raise_for_status()]. *)
Definition raise_for_status (r : Response) : outcome unit :=
  if (400 <=? status_code r) && (status_code r <? 500)
  then Exc (http_error "Client" r)
  else if (500 <=? status_code r) && (status_code r <? 600)
  then Exc (http_error "Server" r)
  else Ret tt.

End requests.

(** ** Python operators on JSON values *)

Definition type_name (v : value) : string :=
  match v with
  | VNone => "NoneType"
  | VBool _ => "bool"
  | VInt _ => "int"
  | VFloat _ => "float"
  | VStr _ => "str"
  | VList _ => "list"
  | VDict _ => "dict"
  end.

(** [needle in haystack] on two strings. *)
Fixpoint is_substring (needle haystack : string) : bool :=
  String.prefix needle haystack
  || match haystack with
     | EmptyString => false
     | String _ rest => is_substring needle rest
     end.

(** [x == key] for a string [key]. *)
Definition eq_str (key : string) (x : value) : bool :=
  match x with
  | VStr s => String.eqb s key
  | _ => false
  end.

(** [key in container]. *)
Definition py_in (key : string) (container : value) : outcome bool :=
  match container with
  | VDict d => Ret (bool_decide (is_Some (d !! key)))
  | VList l => Ret (existsb (eq_str key) l)
  | VStr s => Ret (is_substring key s)
  | _ => Exc (mkExn TypeError
                ("argument of type '" +:+ type_name container
                 +:+ "' is not iterable"))
  end.

(** [container[key]] for a string [key]. *)
Definition py_getitem (container : value) (key : string) : outcome value :=
  match container with
  | VDict d =>
      match d !! key with
      | Some v => Ret v
      | None => Exc (mkExn KeyError key)
      end
  | VList _ =>
      Exc (mkExn TypeError "list indices must be integers or slices, not str")
  | VStr _ => Exc (mkExn TypeError "string indices must be integers, not 'str'")
  | _ => Exc (mkExn TypeError
                ("'" +:+ type_name container +:+ "' object is not subscriptable"))
  end.

(** [obj.get(key)]. *)
Definition py_get (obj : value) (key : string) : outcome value :=
  match obj with
  | VDict d => Ret (default VNone (d !! key))
  | _ => Exc (mkExn AttributeError
                ("'" +:+ type_name obj +:+ "' object has no attribute 'get'"))
  end.

(** [x is None]. *)
Definition is_None (x : value) : bool :=
  match x with VNone => true | _ => false end.

(** Truthiness of a string, and [all] over a list of truth values. *)
Definition truthy (s : string) : bool := negb (String.eqb s EmptyString).
Definition py_all (l : list bool) : bool := forallb id l.

(** [f"{x}"] for a value that is a string or [None]. *)
Definition format_opt (x : option string) : string := default "None" x.

(** ** The adapter: [LangChainServeLLMGenerator] *)

Import urllib_parse requests.

(** Class attributes and the module constant. *)
Definition generator_family_name : string := "LangChainServe".
Definition config_hash : string := "default".
Definition default_class : string := "LangChainServeLLMGenerator".

Definition no_attribute (attr : string) : exn :=
  mkExn AttributeError
    ("'LangChainServeLLMGenerator' object has no attribute '" +:+ attr +:+ "'").

(** Reading a local variable before any assignment to it. *)
Definition unbound_local (var : string) : exn :=
  mkExn UnboundLocalError
    ("cannot access local variable '" +:+ var
     +:+ "' where it is not associated with a value").

Definition invalid_endpoint : exn := mkExn ValueError "Invalid API endpoint URI".

(** Attribute reads [self.name], [self.api_endpoint], [self.config_hash]. *)
Definition read_attr {A} (attr : string)
    (field : LangChainServeLLMGenerator -> option A) : Py A :=
  g <- get_self ;;
  match field g with
  | Some v => ret v
  | None => raise (no_attribute attr)
  end.

Definition self_name : Py string := read_attr "name" name.
Definition self_api_endpoint : Py string := read_attr "api_endpoint" api_endpoint.
Definition self_config_hash : Py string :=
  g <- get_self ;; ret (default config_hash (config_hash_attr g)).

(** Attribute writes. *)
Definition set_name (v : string) : Py unit :=
  g <- get_self ;;
  put_self {| name := Some v; fullname := fullname g;
              generations := generations g; api_endpoint := api_endpoint g;
              config_hash_attr := config_hash_attr g |}.
Definition set_fullname (v : string) : Py unit :=
  g <- get_self ;;
  put_self {| name := name g; fullname := Some v;
              generations := generations g; api_endpoint := api_endpoint g;
              config_hash_attr := config_hash_attr g |}.
Definition set_generations (v : Z) : Py unit :=
  g <- get_self ;;
  put_self {| name := name g; fullname := fullname g;
              generations := Some v; api_endpoint := api_endpoint g;
              config_hash_attr := config_hash_attr g |}.
Definition set_api_endpoint (v : string) : Py unit :=
  g <- get_self ;;
  put_self {| name := name g; fullname := fullname g;
              generations := generations g; api_endpoint := Some v;
              config_hash_attr := config_hash_attr g |}.

(** The first [try] statement of [_call_model] ends in one of two ways:
    control goes on to the statement after it, with the local variable
    [response] bound or not, or a handler has executed [return]. *)
Inductive completion : Type :=
  | Continue (response : option Response)
  | Return (v : value).

Definition headers : list (string * string) :=
  [("Content-Type", "application/json"); ("Accept", "application/json")].

Definition payload (prompt : string) : value :=
  VDict (<["input" := VStr prompt]>
           (<["config" := VDict ∅]> (<["kwargs" := VDict ∅]> ∅))).

Definition the_request (endpoint hash prompt : string) : Request :=
  {| req_url := endpoint +:+ "?config_hash=" +:+ hash;
     req_headers := headers;
     req_data := payload prompt |}.

Section adapter.
(** The library behind the adapter: the URL parser, the initialiser of the
    framework base class [Generator] (which is not part of this module),
    and the network as seen through [requests.post]. *)
Variable urlparse : option string -> outcome ParseResult.
Variable Generator__init__ : string -> Z -> Py unit.
Variable requests_post : Request -> post_result.

Definition _validate_uri (uri : option string) : Py bool :=
  try_except
    (result <- lift (urlparse uri) ;;
     ret (py_all [truthy (scheme result); truthy (netloc result)]))
    (fun e =>
       if isinstance e Exception then
         logging_error (LogUrlParsingError e) ;;; ret false
       else raise e).

Definition __init__ (name : string) (generations : Z) : Py unit :=
  set_name name ;;;
  (n <- self_name ;; set_fullname ("LangChain Serve LLM " +:+ n)) ;;;
  set_generations generations ;;;
  api_uri <- os_getenv "LANGCHAIN_SERVE_URI" ;;
  valid <- _validate_uri api_uri ;;
  if negb valid then raise invalid_endpoint
  else
    set_api_endpoint (format_opt api_uri +:+ "/invoke") ;;;
    Generator__init__ name generations.

(** The expression [LangChainServeLLMGenerator(name, generations)]: a
    blank object is initialised and handed to the caller, unless
    [__init__] raises, in which case the caller gets the exception and no
    object. The result carries the log as well. *)
Definition instantiate (name : string) (generations : Z)
    (env : gmap string string) (log : list log_event)
    : outcome LangChainServeLLMGenerator * list log_event :=
  match __init__ name generations
          {| environ := env; self := blank; logged := log |} with
  | (Ret _, s) => (Ret (self s), logged s)
  | (Exc e, s) => (Exc e, logged s)
  end.

Definition build_request (prompt : string) : Py Request :=
  endpoint <- self_api_endpoint ;;
  hash <- self_config_hash ;;
  ret (the_request endpoint hash prompt).

(** The body of the first [try]: [response = requests.post(...)] then
    [response.raise_for_status()]. The result pairs the binding of the
    local variable [response] when the body ends with the way it ends. *)
Definition post_request (prompt : string)
    : state -> (option Response * outcome unit) * state :=
  fun s =>
    match build_request prompt s with
    | (Exc e, s') => ((None, Exc e), s')
    | (Ret req, s') =>
        match requests_post req with
        | Raises e => ((None, Exc e), s')
        | Responds r => ((Some r, raise_for_status r), s')
        end
    end.

(** [except requests.exceptions.HTTPError as e:] *)
Definition http_error_handler (response : option Response)
    (prompt : string) (e : exn) : Py completion :=
  match response with
  | None => raise (unbound_local "response")
  | Some r =>
      if (400 <=? status_code r) && (status_code r <? 500) then
        logging_error (LogClientError prompt e) ;;; ret (Return VNone)
      else if (500 <=? status_code r) && (status_code r <? 600) then
        logging_error (LogServerError prompt e) ;;; ret (Return VNone)
      else ret (Continue response)
  end.

(** [except requests.exceptions.RequestException as e:] *)
Definition request_exception_handler (e : exn) : Py completion :=
  logging_error (LogRequestFailed e) ;;; ret (Return VNone).

(** The two [except] clauses in order; an exception neither takes leaves
    the function. *)
Definition except_clauses (response : option Response) (prompt : string)
    (e : exn) : Py completion :=
  if isinstance e HTTPError then http_error_handler response prompt e
  else if isinstance e RequestException then request_exception_handler e
  else raise e.

(** The first [try] statement as a whole. *)
Definition send (prompt : string) : Py completion :=
  fun s =>
    match post_request prompt s with
    | ((response, Ret _), s') => (Ret (Continue response), s')
    | ((response, Exc e), s') => except_clauses response prompt e s'
    end.

Definition read_response (response : option Response) : Py Response :=
  match response with
  | Some r => ret r
  | None => raise (unbound_local "response")
  end.

(** The second [try] statement. *)
Definition process_response (response : option Response) : Py value :=
  try_except
    (r <- read_response response ;;
     response_data <- lift (json r) ;;
     absent <- (present <- lift (py_in "output" response_data) ;;
                ret (negb present)) ;;
     missing <- (if absent then ret true
                 else v <- lift (py_getitem response_data "output") ;;
                      ret (is_None v)) ;;
     if missing then
       logging_error (LogNoOutput response_data) ;;;
       ret (VStr "No output generated")
     else lift (py_get response_data "output"))
    (fun e =>
       if isinstance e JSONDecodeError then
         r <- read_response response ;;
         logging_error (LogJsonDecodeFailed (text r) e) ;;; ret VNone
       else if isinstance e Exception then
         logging_error (LogUnexpected e) ;;; ret VNone
       else raise e).

Definition _call_model (prompt : string) : Py value :=
  c <- send prompt ;;
  match c with
  | Return v => ret v
  | Continue response => process_response response
  end.
End adapter.

(** ** Vocabulary of the properties *)

Definition LANGCHAIN_SERVE_URI : string := "LANGCHAIN_SERVE_URI".

(** The request [_call_model] issues for [prompt] on instance [g]; there is
    none when [api_endpoint] is unset (the attribute read raises first). *)
Definition issued_request (g : LangChainServeLLMGenerator) (prompt : string)
    : option Request :=
  match api_endpoint g with
  | Some endpoint =>
      Some (the_request endpoint (default config_hash (config_hash_attr g)) prompt)
  | None => None
  end.

(** A transport-level failure of [requests.post]: any [RequestException]
    other than the [HTTPError] that [raise_for_status] produces. *)
Definition transport_level (e : exn) : bool :=
  isinstance e RequestException && negb (isinstance e HTTPError).

(** The status codes for which [raise_for_status] raises. *)
Definition error_status (code : Z) : Prop := 400 <= code < 600.
Definition success_status (code : Z) : Prop := 200 <= code < 300.

(** [uri] parses into a URI with a non-empty scheme and a non-empty network
    location. *)
Definition has_scheme_and_netloc
    (urlparse : option string -> outcome ParseResult) (uri : option string)
    : Prop :=
  exists r, urlparse uri = Ret r /\ scheme r <> EmptyString /\ netloc r <> EmptyString.

(** A decoded body has no ["output"] field, or a null one. Only an object
    has fields. *)
Definition lacks_output (body : value) : Prop :=
  match body with
  | VDict d => d !! "output" = None \/ d !! "output" = Some VNone
  | _ => True
  end.

(** The decoded bodies on which the test
    ["output" not in response_data or response_data["output"] is None]
    evaluates to true without raising. *)
Definition answers_sentinel (body : value) : bool :=
  match body with
  | VDict d =>
      match d !! "output" with
      | None | Some VNone => true
      | Some _ => false
      end
  | VList l => negb (existsb (eq_str "output") l)
  | VStr s => negb (is_substring "output" s)
  | _ => false
  end.

(** The status codes for which [raise_for_status] raises, as a test. *)
Definition is_error_status (code : Z) : bool :=
  (400 <=? code) && (code <? 600).

Definition no_output_generated : value := VStr "No output generated".

(** What the second [try] statement returns for a decoded body. *)
Definition decoded_result (body : value) : value :=
  if answers_sentinel body then no_output_generated
  else match body with
       | VDict d => default VNone (d !! "output")
       | _ => VNone
       end.

(** The result of [_call_model] on instance [g], read off the branches of
    the function: by what [requests.post] does, then by the status code,
    then by what [response.json()] does. *)
Definition call_model_outcome (post : Request -> post_result)
    (g : LangChainServeLLMGenerator) (prompt : string) : outcome value :=
  match issued_request g prompt with
  | None => Exc (no_attribute "api_endpoint")
  | Some req =>
      match post req with
      | Raises e =>
          if isinstance e HTTPError then Exc (unbound_local "response")
          else if isinstance e RequestException then Ret VNone
          else Exc e
      | Responds r =>
          if is_error_status (status_code r) then Ret VNone
          else match json r with
               | Ret body => Ret (decoded_result body)
               | Exc _ => Ret VNone
               end
      end
  end.

(** The instance after the first three assignments of [__init__], and after
    the assignment of [api_endpoint]. *)
Definition named (g : LangChainServeLLMGenerator) (n : string) (gens : Z)
    : LangChainServeLLMGenerator :=
  {| name := Some n; fullname := Some ("LangChain Serve LLM " +:+ n);
     generations := Some gens; api_endpoint := api_endpoint g;
     config_hash_attr := config_hash_attr g |}.

Definition with_api_endpoint (g : LangChainServeLLMGenerator) (endpoint : string)
    : LangChainServeLLMGenerator :=
  {| name := name g; fullname := fullname g; generations := generations g;
     api_endpoint := Some endpoint; config_hash_attr := config_hash_attr g |}.

Definition with_self (s : state) (g : LangChainServeLLMGenerator) : state :=
  {| environ := environ s; self := g; logged := logged s |}.

(** A computation that touches the state only by appending to the log: it
    assigns no attribute of [self] and no environment variable. *)
Definition read_only {A} (m : Py A) : Prop :=
  forall s, exists evs,
    snd (m s) = {| environ := environ s; self := self s;
                   logged := logged s ++ evs |}.

(** The base-class initialiser leaves [api_endpoint] as it finds it. *)
Definition preserves_api_endpoint (init : string -> Z -> Py unit) : Prop :=
  forall n g s, api_endpoint (self (snd (init n g s))) = api_endpoint (self s).

(** ** Fixtures, after [tests/generators/test_langchain_serve.py] *)

(** Modelled from the spec: the initialiser of the framework base class
    [Generator] ([garak.generators.base]), which this module calls through
    [super().__init__] and which is not part of the sources at hand. The
    specification gives construction no side effect beyond reading the
    environment variable and setting the fields, so the model returns with
    the instance as the subclass has initialised it. *)
Definition Generator__init__model : string -> Z -> Py unit :=
  fun _ _ => ret tt.

(** A stand-in for the two host checks of [urlparse] that accepts every
    host. *)
Definition accept_host : string -> outcome unit := fun _ => Ret tt.

Definition DEFAULT_GENERATIONS_QTY : Z := 10.

(** The fixture [set_env_vars]. *)
Definition test_environ : gmap string string :=
  {[ LANGCHAIN_SERVE_URI := "http://127.0.0.1:8000" ]}.

Definition test_generator : LangChainServeLLMGenerator :=
  {| name := Some "test-generator";
     fullname := Some "LangChain Serve LLM test-generator";
     generations := Some DEFAULT_GENERATIONS_QTY;
     api_endpoint := Some "http://127.0.0.1:8000/invoke";
     config_hash_attr := None |}.

Definition test_state : state :=
  {| environ := test_environ; self := test_generator; logged := [] |}.

Definition mocked_url : string :=
  "http://127.0.0.1:8000/invoke?config_hash=default".

(** [requests_mock.post(url, ...)]: the registered response for a request
    to [url], a connection error for any other address. *)
Definition requests_mock (url : string) (r : Response) : Request -> post_result :=
  fun req =>
    if String.eqb (req_url req) url then Responds r
    else Raises (mkExn ConnectionError "No mock address").

Definition mocked_response (code : Z) (reason body : string)
    (decoded : outcome value) : Response :=
  {| status_code := code; reason := reason; url := mocked_url;
     text := body; json := decoded |}.

(** [json={"output": ["Generated text"]}] *)
Definition quoted (s : string) : string :=
  String "034" (s +:+ String "034" EmptyString).

Definition generated_text_response : Response :=
  mocked_response 200 "OK"
    ("{" +:+ quoted "output" +:+ ": [" +:+ quoted "Generated text" +:+ "]}")
    (Ret (VDict {[ "output" := VList [VStr "Generated text"] ]})).

(** The request the adapter of the tests issues for [prompt]. *)
Definition test_request (prompt : string) : Request :=
  the_request "http://127.0.0.1:8000/invoke" "default" prompt.

(** [status_code=500], no body. *)
Definition server_error_response : Response :=
  mocked_response 500 "Internal Server Error" EmptyString
    (Exc (mkExn RequestsJSONDecodeError "Expecting value: line 1 column 1 (char 0)")).

(** [json={}, status_code=200] *)
Definition empty_object_response : Response :=
  mocked_response 200 "OK" "{}" (Ret (VDict ∅)).

(** A 200 response whose body is the JSON document [null]. *)
Definition null_response : Response :=
  mocked_response 200 "OK" "null" (Ret VNone).

(** A 200 response whose body is not JSON. *)
Definition undecodable_response : Response :=
  mocked_response 200 "OK" "<html>"
    (Exc (mkExn RequestsJSONDecodeError "Expecting value: line 1 column 1 (char 0)")).

(** An endpoint nothing listens on. *)
Definition unreachable : Request -> post_result :=
  fun _ => Raises (mkExn ConnectionError "Connection refused").

(** ** Vocabulary of the further properties *)

(** The base-class initialiser leaves every attribute of the instance as it
    finds it. *)
Definition preserves_self (init : string -> Z -> Py unit) : Prop :=
  forall n g s, self (snd (init n g s)) = self s.

(** The skeleton of [urlsplit], step by step: the cleaned input, the scheme
    split off it, and the network location split off the rest. *)
Definition cleaned (url0 : string) : string :=
  remove_unsafe (lstrip_c0_or_space url0).

Definition is_blank (c : ascii) : bool := (code c <=? 32)%nat.

Definition is_unsafe (c : ascii) : bool :=
  ((code c =? 9) || (code c =? 13) || (code c =? 10))%nat.

(** The characters a plain host name may consist of: printable ASCII except
    the delimiters of the network location and the brackets. *)
Definition is_host_char (c : ascii) : bool :=
  ((32 <? code c) && (code c <? 128))%nat
  && negb (Ascii.eqb c "/") && negb (Ascii.eqb c "?") && negb (Ascii.eqb c "#")
  && negb (Ascii.eqb c "[") && negb (Ascii.eqb c "]").

(** [rest] is empty or begins a path, a query or a fragment. *)
Definition starts_component (rest : string) : bool :=
  match rest with
  | EmptyString => true
  | String c _ => Ascii.eqb c "/" || Ascii.eqb c "?" || Ascii.eqb c "#"
  end.

Definition split_scheme (url : string) : string * string :=
  match find ":" url, url with
  | Some (S i'), String c _ =>
      if is_ascii_alpha c && str_forallb is_scheme_char (str_take (S i') url)
      then (lower (str_take (S i') url), str_drop (S (S i')) url)
      else (EmptyString, url)
  | _, _ => (EmptyString, url)
  end.

(** ** The test module [tests/generators/test_langchain_serve.py] *)

(** How a test ends: it passes, an [assert] (or [pytest.raises]) fails, or
    an exception leaves the test function. *)
Inductive verdict : Type :=
  | Passed
  | Failed (message : string)
  | Errored (e : exn).

Definition Test : Type := state -> verdict * state.

(** [os.environ[key] = value] and [os.environ.pop(key, None)]. *)
Definition os_environ_set (key value : string) : Py unit :=
  fun s => (Ret tt, {| environ := <[key := value]> (environ s);
                       self := self s; logged := logged s |}).
Definition os_environ_pop (key : string) : Py unit :=
  fun s => (Ret tt, {| environ := delete key (environ s);
                       self := self s; logged := logged s |}).

(** The fixture [set_env_vars]: the code before [yield] runs before the
    test, the code after it runs when the test is over, however it ended. *)
Definition set_env_vars (test : Test) : Test :=
  fun s =>
    let s1 := snd (os_environ_set "LANGCHAIN_SERVE_URI" "http://127.0.0.1:8000" s) in
    let '(v, s2) := test s1 in
    (v, snd (os_environ_pop "LANGCHAIN_SERVE_URI" s2)).

(** [assert cond], followed by the rest of the test. *)
Definition assert_that (cond : bool) (message : string) (rest : Py verdict)
    : Py verdict :=
  if cond then rest else ret (Failed message).

(** [with pytest.raises(cls): body], followed by the rest of the test. An
    exception of another class leaves the block. *)
Definition pytest_raises {A} (cls : exn_class) (body : Py A)
    (rest : Py verdict) : Py verdict :=
  fun s =>
    match body s with
    | (Ret _, s') => (Ret (Failed "DID NOT RAISE"), s')
    | (Exc e, s') => if isinstance e cls then rest s' else (Exc e, s')
    end.

Definition run_test (body : Py verdict) : Test :=
  fun s =>
    match body s with
    | (Ret v, s') => (v, s')
    | (Exc e, s') => (Errored e, s')
    end.

(** [len(x)] and [x[0]]. [IndexError] is not among the modelled classes;
    its base class [LookupError] stands for it. *)
Definition py_len (x : value) : outcome Z :=
  match x with
  | VStr s => Ret (Z.of_nat (String.length s))
  | VList l => Ret (Z.of_nat (List.length l))
  | VDict d => Ret (Z.of_nat (size d))
  | _ => Exc (mkExn TypeError
                ("object of type '" +:+ type_name x +:+ "' has no len()"))
  end.

Definition py_first (x : value) : outcome value :=
  match x with
  | VList (v :: _) => Ret v
  | VList [] => Exc (mkExn LookupError "list index out of range")
  | VStr (String c _) => Ret (VStr (String c EmptyString))
  | VStr EmptyString => Exc (mkExn LookupError "string index out of range")
  | VDict _ => Exc (mkExn KeyError "0")
  | _ => Exc (mkExn TypeError
                ("'" +:+ type_name x +:+ "' object is not subscriptable"))
  end.

(** The default of the parameter [generations] of [__init__]. *)
Definition default_generations : Z := 10.

Section tests.
Variable urlparse : option string -> outcome ParseResult.
Variable Generator__init__ : string -> Z -> Py unit.

(** [generator = LangChainServeLLMGenerator(name=...)]: from here on [self]
    is the object the variable [generator] refers to. *)
Definition new_generator (name : string) : Py unit :=
  fun s => __init__ urlparse Generator__init__ name default_generations
             (with_self s blank).

Definition test_validate_uri : Test :=
  run_test
    (new_generator "test-generator" ;;;
     valid <- _validate_uri urlparse (Some "http://127.0.0.1:8000") ;;
     assert_that (Bool.eqb valid true)
       "assert generator._validate_uri('http://127.0.0.1:8000') == True"
       (invalid <- _validate_uri urlparse (Some "bad_uri") ;;
        assert_that (Bool.eqb invalid false)
          "assert generator._validate_uri('bad_uri') == False"
          (ret Passed))).

Definition test_langchain_serve_generator_initialization : Test :=
  set_env_vars
    (run_test
       (new_generator "test-generator" ;;;
        n <- self_name ;;
        assert_that (String.eqb n "test-generator")
          "assert generator.name == 'test-generator'"
          (g <- read_attr "generations" generations ;;
           assert_that (g =? DEFAULT_GENERATIONS_QTY)
             "assert generator.generations == DEFAULT_GENERATIONS_QTY"
             (endpoint <- self_api_endpoint ;;
              assert_that (String.eqb endpoint "http://127.0.0.1:8000/invoke")
                "assert generator.api_endpoint == 'http://127.0.0.1:8000/invoke'"
                (ret Passed))))).

Definition test_langchain_serve_generation : Test :=
  set_env_vars
    (run_test
       (new_generator "test-generator" ;;;
        output <- _call_model (requests_mock mocked_url generated_text_response)
                    "Hello LangChain!" ;;
        n <- lift (py_len output) ;;
        assert_that (n =? 1) "assert len(output) == 1"
          (first <- lift (py_first output) ;;
           assert_that (eq_str "Generated text" first)
             "assert output[0] == 'Generated text'"
             (ret Passed)))).

Definition test_error_handling : Test :=
  set_env_vars
    (run_test
       (new_generator "test-generator" ;;;
        pytest_raises Exception
          (_call_model (requests_mock mocked_url server_error_response)
             "This should raise an error")
          (ret Passed))).

Definition test_bad_response_handling : Test :=
  set_env_vars
    (run_test
       (new_generator "test-generator" ;;;
        output <- _call_model (requests_mock mocked_url empty_object_response)
                    "This should not find output" ;;
        assert_that (is_None output) "assert output is None" (ret Passed))).
End tests.

(** A base-class initialiser that returns normally and leaves the instance
    and the environment as they are; it may log. *)
Definition transparent (init : string -> Z -> Py unit) : Prop :=
  forall n g s,
    exists s', init n g s = (Ret tt, s')
               /\ self s' = self s /\ environ s' = environ s.

(** ** Further fixtures *)

(** A 302 response that carries a JSON body. *)
Definition redirect_response : Response :=
  mocked_response 302 "Found" "{...}"
    (Ret (VDict {[ "output" := VStr "moved" ]})).

(** A [requests.post] that lets an exception from outside the [requests]
    hierarchy through. *)
Definition leaking : Request -> post_result :=
  fun _ => Raises (mkExn ValueError "check_hostname requires server_hostname").


(** An environment whose URI has an unbalanced bracket, and one that holds
    another URI and another variable. *)
Definition bracket_environ : gmap string string :=
  {[ LANGCHAIN_SERVE_URI := "http://[::1" ]}.

Definition other_environ : gmap string string :=
  <[ LANGCHAIN_SERVE_URI := "http://example.org" ]> {[ "HOME" := "/root" ]}.

(** A test that does nothing. *)
Definition empty_test : Test := fun s => (Passed, s).

(** ** Properties *)

(** *** The exception hierarchy *)

Lemma isinstance_Exception (e : exn) : isinstance e Exception = true.
Proof. destruct e as [c m]; destruct c; reflexivity. Qed.

Lemma transport_level_spec (e : exn) :
  transport_level e = true ->
  isinstance e HTTPError = false /\ isinstance e RequestException = true.
Proof.
  unfold transport_level. intros H.
  apply andb_true_iff in H as [H1 H2]. apply negb_true_iff in H2. auto.
Qed.

(** *** [raise_for_status] *)

Lemma raise_for_status_error (r : Response) :
  error_status (status_code r) ->
  exists e, raise_for_status r = Exc e /\ isinstance e HTTPError = true.
Proof.
  unfold error_status, raise_for_status. intros H.
  destruct (400 <=? status_code r) eqn:E1, (status_code r <? 500) eqn:E2;
    simpl; try (eexists; split; reflexivity);
    destruct (500 <=? status_code r) eqn:E3, (status_code r <? 600) eqn:E4;
    simpl; try (eexists; split; reflexivity); lia.
Qed.

Lemma raise_for_status_ok (r : Response) :
  ~ error_status (status_code r) -> raise_for_status r = Ret tt.
Proof.
  unfold error_status, raise_for_status. intros H.
  destruct (400 <=? status_code r) eqn:E1, (status_code r <? 500) eqn:E2;
    simpl; try lia;
    destruct (500 <=? status_code r) eqn:E3, (status_code r <? 600) eqn:E4;
    simpl; try reflexivity; lia.
Qed.

Lemma raise_for_status_raises (r : Response) (e : exn) :
  raise_for_status r = Exc e ->
  isinstance e HTTPError = true
  /\ (400 <= status_code r < 500 \/ 500 <= status_code r < 600).
Proof.
  unfold raise_for_status.
  destruct (400 <=? status_code r) eqn:E1, (status_code r <? 500) eqn:E2;
    simpl; try (intros [= <-]; split; [reflexivity | lia]);
    destruct (500 <=? status_code r) eqn:E3, (status_code r <? 600) eqn:E4;
    simpl; try discriminate; intros [= <-]; (split; [reflexivity | lia]).
Qed.

(** *** [_validate_uri] *)

Lemma truthy_spec (x : string) : truthy x = true <-> x <> EmptyString.
Proof.
  unfold truthy. rewrite negb_true_iff. split.
  - intros H ->. discriminate.
  - intros H. destruct x; [congruence | reflexivity].
Qed.

Lemma validate_uri_run up (uri : option string) (s : state) :
  _validate_uri up uri s =
    match up uri with
    | Ret r => (Ret (truthy (scheme r) && truthy (netloc r)), s)
    | Exc e => (Ret false, log_append s (LogUrlParsingError e))
    end.
Proof.
  unfold _validate_uri, try_except, bind, lift, ret, py_all.
  destruct (up uri) as [r | e]; simpl.
  - now rewrite andb_true_r.
  - now rewrite isinstance_Exception.
Qed.

Lemma validate_uri_true up (uri : option string) (s : state) :
  fst (_validate_uri up uri s) = Ret true <-> has_scheme_and_netloc up uri.
Proof.
  rewrite validate_uri_run. unfold has_scheme_and_netloc.
  destruct (up uri) as [r | e]; simpl; split.
  - intros [= H]. apply andb_true_iff in H as [H1 H2].
    exists r. rewrite <- !truthy_spec. auto.
  - intros (r' & [= <-] & H1 & H2). f_equal.
    apply andb_true_iff. rewrite !truthy_spec. auto.
  - discriminate.
  - intros (r' & [=] & _).
Qed.

Lemma validate_uri_returns up (uri : option string) (s : state) :
  exists b s', _validate_uri up uri s = (Ret b, s').
Proof.
  rewrite validate_uri_run. destruct (up uri); eauto.
Qed.

Lemma validate_uri_logs_only up (uri : option string) (s : state) :
  self (snd (_validate_uri up uri s)) = self s
  /\ environ (snd (_validate_uri up uri s)) = environ s.
Proof. rewrite validate_uri_run. destruct (up uri); split; reflexivity. Qed.

(** *** [__init__] *)

Lemma init_run up G (n : string) (gens : Z) (s : state) :
  __init__ up G n gens s =
    match _validate_uri up (environ s !! LANGCHAIN_SERVE_URI)
            (with_self s (named (self s) n gens)) with
    | (Ret true, s') =>
        G n gens
          (with_self s'
             (with_api_endpoint (self s')
                (format_opt (environ s !! LANGCHAIN_SERVE_URI) +:+ "/invoke")))
    | (Ret false, s') => (Exc invalid_endpoint, s')
    | (Exc e, s') => (Exc e, s')
    end.
Proof.
  unfold __init__, set_name, set_fullname, set_generations, set_api_endpoint,
    self_name, read_attr, os_getenv, bind, get_self, put_self, ret, raise.
  simpl. fold LANGCHAIN_SERVE_URI.
  unfold with_self, named, with_api_endpoint. simpl.
  destruct (_validate_uri _ _ _) as [[[] | e] s']; simpl; try reflexivity.
Qed.

Lemma instantiate_invalid up G (n : string) (gens : Z)
    (env : gmap string string) (log : list log_event) :
  ~ has_scheme_and_netloc up (env !! LANGCHAIN_SERVE_URI) ->
  exists log', instantiate up G n gens env log = (Exc invalid_endpoint, log').
Proof.
  intros H. unfold instantiate. rewrite init_run. simpl.
  set (s1 := with_self _ _).
  rewrite <- (validate_uri_true up _ s1) in H.
  destruct (validate_uri_returns up (env !! LANGCHAIN_SERVE_URI) s1)
    as (b & s' & E).
  rewrite E in *. simpl in H.
  destruct b; [congruence |]. eauto.
Qed.

Lemma instantiate_valid up G (n : string) (gens : Z)
    (env : gmap string string) (log log' : list log_event)
    (g : LangChainServeLLMGenerator) :
  preserves_api_endpoint G ->
  instantiate up G n gens env log = (Ret g, log') ->
  has_scheme_and_netloc up (env !! LANGCHAIN_SERVE_URI)
  /\ api_endpoint g
     = Some (format_opt (env !! LANGCHAIN_SERVE_URI) +:+ "/invoke").
Proof.
  intros HG. unfold instantiate. rewrite init_run. simpl.
  set (s1 := with_self _ _).
  rewrite <- (validate_uri_true up _ s1).
  destruct (_validate_uri up (env !! LANGCHAIN_SERVE_URI) s1)
    as [[[] | e] s'] eqn:E; simpl.
  - specialize (HG n gens
      (with_self s'
         (with_api_endpoint (self s')
            (format_opt (env !! LANGCHAIN_SERVE_URI) +:+ "/invoke")))).
    destruct (G n gens _) as [[[] | e] s2]; simpl in *; [| discriminate].
    intros [= <- <-]. split; [reflexivity | exact HG].
  - discriminate.
  - discriminate.
Qed.

Lemma urlparse_unset check_host check_nfkc :
  ~ has_scheme_and_netloc (urlparse check_host check_nfkc) None.
Proof. intros (r & [= <-] & H & _). now apply H. Qed.

Lemma urlparse_empty check_host check_nfkc :
  ~ has_scheme_and_netloc (urlparse check_host check_nfkc) (Some EmptyString).
Proof. intros (r & [= <-] & H & _). now apply H. Qed.

(** *** [_call_model] *)

Lemma is_error_status_spec (code : Z) :
  is_error_status code = true <-> error_status code.
Proof. unfold is_error_status, error_status. rewrite andb_true_iff. lia. Qed.

Lemma build_request_run (prompt : string) (s : state) :
  build_request prompt s =
    match issued_request (self s) prompt with
    | Some req => (Ret req, s)
    | None => (Exc (no_attribute "api_endpoint"), s)
    end.
Proof.
  unfold build_request, issued_request, self_api_endpoint, self_config_hash,
    read_attr, bind, get_self, ret, raise.
  destruct (api_endpoint (self s)); reflexivity.
Qed.

Lemma process_response_result (r : Response) (s : state) :
  fst (process_response (Some r) s) =
    match json r with
    | Ret body => Ret (decoded_result body)
    | Exc _ => Ret VNone
    end.
Proof.
  unfold process_response, try_except, bind, lift, ret, read_response.
  simpl. destruct (json r) as [body | e]; simpl.
  - unfold decoded_result, answers_sentinel.
    destruct body as [| b | n | x | t | l | d]; simpl; try reflexivity.
    + destruct (is_substring "output" t); reflexivity.
    + destruct (existsb (eq_str "output") l); reflexivity.
    + destruct (d !! "output") as [v |] eqn:E; simpl.
      * destruct v; reflexivity.
      * reflexivity.
  - destruct (isinstance e JSONDecodeError); [reflexivity |].
    now rewrite isinstance_Exception.
Qed.

Lemma call_model_result post (prompt : string) (s : state) :
  fst (_call_model post prompt s) = call_model_outcome post (self s) prompt.
Proof.
  unfold _call_model, call_model_outcome, bind, send, post_request.
  rewrite build_request_run.
  destruct (issued_request (self s) prompt) as [req |]; [| reflexivity].
  destruct (post req) as [e | r].
  - unfold except_clauses.
    destruct (isinstance e HTTPError); [reflexivity |].
    destruct (isinstance e RequestException); reflexivity.
  - destruct (is_error_status (status_code r)) eqn:E.
    + apply is_error_status_spec in E.
      destruct (raise_for_status r) as [[] | e] eqn:R.
      * destruct (raise_for_status_error r E) as (e' & R' & _). congruence.
      * simpl. destruct (raise_for_status_raises r e R) as [HE HS].
        unfold except_clauses, http_error_handler. rewrite HE.
        destruct HS as [HS | HS].
        -- replace ((400 <=? status_code r) && (status_code r <? 500)) with true
             by (symmetry; apply andb_true_iff; lia).
           reflexivity.
        -- replace ((400 <=? status_code r) && (status_code r <? 500)) with false
             by (symmetry; apply andb_false_iff; lia).
           replace ((500 <=? status_code r) && (status_code r <? 600)) with true
             by (symmetry; apply andb_true_iff; lia).
           reflexivity.
    + rewrite raise_for_status_ok.
      * simpl. apply process_response_result.
      * rewrite <- is_error_status_spec. congruence.
Qed.


(** *** Computations that only append to the log *)

Lemma state_eta (s : state) :
  s = {| environ := environ s; self := self s; logged := logged s ++ [] |}.
Proof. destruct s; simpl. now rewrite app_nil_r. Qed.

Lemma read_only_ret {A} (a : A) : read_only (ret a).
Proof. intros s. exists []. apply state_eta. Qed.

Lemma read_only_raise {A} (e : exn) : read_only (@raise A e).
Proof. intros s. exists []. apply state_eta. Qed.

Lemma read_only_lift {A} (o : outcome A) : read_only (lift o).
Proof. intros s. exists []. apply state_eta. Qed.

Lemma read_only_get_self : read_only get_self.
Proof. intros s. exists []. apply state_eta. Qed.

Lemma read_only_logging_error (ev : log_event) : read_only (logging_error ev).
Proof. intros s. exists [ev]. reflexivity. Qed.

Lemma read_only_bind {A B} (m : Py A) (k : A -> Py B) :
  read_only m -> (forall a, read_only (k a)) -> read_only (bind m k).
Proof.
  intros Hm Hk s. unfold bind.
  destruct (Hm s) as [evs Hs].
  destruct (m s) as [[a | e] s1]; simpl in Hs; subst s1.
  - destruct (Hk a {| environ := environ s; self := self s;
                      logged := logged s ++ evs |}) as [evs' Hs'].
    exists (evs ++ evs')%list. rewrite Hs'. simpl. now rewrite app_assoc.
  - exists evs. reflexivity.
Qed.

Lemma read_only_try_except {A} (body : Py A) (handler : exn -> Py A) :
  read_only body -> (forall e, read_only (handler e)) ->
  read_only (try_except body handler).
Proof.
  intros Hb Hh s. unfold try_except.
  destruct (Hb s) as [evs Hs].
  destruct (body s) as [[a | e] s1]; simpl in Hs; subst s1.
  - exists evs. reflexivity.
  - destruct (Hh e {| environ := environ s; self := self s;
                      logged := logged s ++ evs |}) as [evs' Hs'].
    exists (evs ++ evs')%list. rewrite Hs'. simpl. now rewrite app_assoc.
Qed.

Lemma read_only_if {A} (b : bool) (m1 m2 : Py A) :
  read_only m1 -> read_only m2 -> read_only (if b then m1 else m2).
Proof. destruct b; auto. Qed.

Create HintDb read_only.
#[local] Hint Resolve read_only_ret read_only_raise read_only_lift
  read_only_get_self read_only_logging_error read_only_if : read_only.
#[local] Hint Extern 2 (read_only (bind _ _)) =>
  apply read_only_bind; [| intros ?] : read_only.
#[local] Hint Extern 2 (read_only (try_except _ _)) =>
  apply read_only_try_except; [| intros ?] : read_only.

Lemma read_only_read_attr {A} (attr : string)
    (field : LangChainServeLLMGenerator -> option A) :
  read_only (read_attr attr field).
Proof.
  unfold read_attr. apply read_only_bind; [auto with read_only |].
  intros g. destruct (field g); auto with read_only.
Qed.

Lemma read_only_build_request (prompt : string) :
  read_only (build_request prompt).
Proof.
  unfold build_request, self_api_endpoint, self_config_hash.
  apply read_only_bind; [apply read_only_read_attr |].
  intros ep. auto with read_only.
Qed.

Lemma read_only_except_clauses (response : option Response)
    (prompt : string) (e : exn) :
  read_only (except_clauses response prompt e).
Proof.
  unfold except_clauses, http_error_handler, request_exception_handler.
  destruct response as [r |]; auto 8 with read_only.
Qed.

Lemma read_only_send post (prompt : string) : read_only (send post prompt).
Proof.
  intros s. unfold send, post_request.
  destruct (read_only_build_request prompt s) as [evs Hs].
  destruct (build_request prompt s) as [[req | e] s1]; simpl in Hs; subst s1.
  - destruct (post req) as [e | r].
    + destruct (read_only_except_clauses None prompt e
                  {| environ := environ s; self := self s;
                     logged := logged s ++ evs |}) as [evs' Hs'].
      exists (evs ++ evs')%list. rewrite Hs'. simpl. now rewrite app_assoc.
    + destruct (raise_for_status r) as [[] | e].
      * exists evs. reflexivity.
      * destruct (read_only_except_clauses (Some r) prompt e
                    {| environ := environ s; self := self s;
                       logged := logged s ++ evs |}) as [evs' Hs'].
        exists (evs ++ evs')%list. rewrite Hs'. simpl. now rewrite app_assoc.
  - destruct (read_only_except_clauses None prompt e
                {| environ := environ s; self := self s;
                   logged := logged s ++ evs |}) as [evs' Hs'].
    exists (evs ++ evs')%list. rewrite Hs'. simpl. now rewrite app_assoc.
Qed.

Lemma read_only_process_response (response : option Response) :
  read_only (process_response response).
Proof.
  unfold process_response, read_response.
  apply read_only_try_except.
  - apply read_only_bind; [destruct response; auto with read_only |].
    intros r. auto 12 with read_only.
  - intros e. apply read_only_if; [| auto with read_only].
    apply read_only_bind; [destruct response; auto with read_only |].
    intros r. auto with read_only.
Qed.

Lemma read_only_call_model post (prompt : string) :
  read_only (_call_model post prompt).
Proof.
  unfold _call_model.
  apply read_only_bind; [apply read_only_send |].
  intros [response | v]; [apply read_only_process_response | auto with read_only].
Qed.

(** ** The claims *)

(** *** URI validation *)

(** C4. For every input string, [_validate_uri] returns a boolean, and that
    boolean is true if and only if the string parses into a URI with a
    non-empty scheme and a non-empty network location, whatever parser is
    put behind [urlparse]. With CPython's [urlparse] it returns false for
    "bad_uri", for the empty string and for "/just/a/path", and true for
    "http://127.0.0.1:8000". *)
Theorem validate_uri_iff_scheme_and_netloc :
  (forall up (uri : string) (s : state),
      exists b : bool,
        fst (_validate_uri up (Some uri) s) = Ret b
        /\ (b = true <-> has_scheme_and_netloc up (Some uri)))
  /\ (forall check_host check_nfkc (s : state),
        let up := urlparse check_host check_nfkc in
        fst (_validate_uri up (Some "bad_uri") s) = Ret false
        /\ fst (_validate_uri up (Some EmptyString) s) = Ret false
        /\ fst (_validate_uri up (Some "/just/a/path") s) = Ret false
        /\ fst (_validate_uri up (Some "http://127.0.0.1:8000") s) = Ret true).
Proof.
  split.
  - intros up uri s.
    destruct (validate_uri_returns up (Some uri) s) as (b & s' & E).
    exists b. split; [now rewrite E |].
    rewrite <- (validate_uri_true up (Some uri) s), E. simpl.
    split; congruence.
  - intros check_host check_nfkc s up. subst up.
    rewrite !validate_uri_run. repeat split; reflexivity.
Qed.

(** C8. [_validate_uri] never raises, for a string or for [None] and
    whatever the parser does: when parsing raises, the exception is caught,
    logged and turned into the return value false. *)
Theorem validate_uri_never_raises up (uri : option string) (s : state) :
  exists (b : bool) (s' : state),
    _validate_uri up uri s = (Ret b, s')
    /\ forall e, up uri = Exc e ->
         b = false /\ s' = log_append s (LogUrlParsingError e).
Proof.
  rewrite validate_uri_run.
  destruct (up uri) as [r | e].
  - eexists _, _. split; [reflexivity | discriminate].
  - eexists _, _. split; [reflexivity |]. intros e' [= <-]. auto.
Qed.

(** *** Construction *)

(** C5. Construction with [LANGCHAIN_SERVE_URI] unset, empty, or not
    parsing into a URI with both a scheme and a network location raises the
    configuration error [ValueError("Invalid API endpoint URI")]; the caller
    gets the exception and no instance. *)
Theorem init_rejects_invalid_uri check_host check_nfkc G (n : string)
    (gens : Z) (env : gmap string string) (log : list log_event) :
  env !! LANGCHAIN_SERVE_URI = None
  \/ env !! LANGCHAIN_SERVE_URI = Some EmptyString
  \/ ~ has_scheme_and_netloc (urlparse check_host check_nfkc)
         (env !! LANGCHAIN_SERVE_URI) ->
  (exists log',
      instantiate (urlparse check_host check_nfkc) G n gens env log
      = (Exc invalid_endpoint, log'))
  /\ forall g,
       fst (instantiate (urlparse check_host check_nfkc) G n gens env log)
       <> Ret g.
Proof.
  intros H.
  assert (Hinv : ~ has_scheme_and_netloc (urlparse check_host check_nfkc)
                     (env !! LANGCHAIN_SERVE_URI)).
  { destruct H as [-> | [-> | H]];
      [apply urlparse_unset | apply urlparse_empty | exact H]. }
  destruct (instantiate_invalid _ G n gens env log Hinv) as [log' E].
  split; [eauto |]. intros g. rewrite E. discriminate.
Qed.

(** C7. After every successful construction, [api_endpoint] is the
    validated base URI followed by "/invoke"; with
    [LANGCHAIN_SERVE_URI=http://127.0.0.1:8000] it is
    "http://127.0.0.1:8000/invoke". The initialiser of the base class is
    any function that leaves [api_endpoint] alone. *)
Theorem api_endpoint_is_uri_invoke check_host check_nfkc G (n : string)
    (gens : Z) (env : gmap string string) (log log' : list log_event)
    (g : LangChainServeLLMGenerator) :
  preserves_api_endpoint G ->
  instantiate (urlparse check_host check_nfkc) G n gens env log = (Ret g, log') ->
  (exists uri,
      env !! LANGCHAIN_SERVE_URI = Some uri
      /\ has_scheme_and_netloc (urlparse check_host check_nfkc) (Some uri)
      /\ api_endpoint g = Some (uri +:+ "/invoke"))
  /\ (env !! LANGCHAIN_SERVE_URI = Some "http://127.0.0.1:8000" ->
      api_endpoint g = Some "http://127.0.0.1:8000/invoke").
Proof.
  intros HG E.
  destruct (instantiate_valid _ G n gens env log log' g HG E) as [Hv Hep].
  destruct (env !! LANGCHAIN_SERVE_URI) as [uri |] eqn:Henv.
  - split; [eauto |]. intros [= ->]. exact Hep.
  - exfalso. exact (urlparse_unset _ _ Hv).
Qed.

(** *** Invocation *)

Lemma success_not_error (code : Z) :
  success_status code -> is_error_status code = false.
Proof.
  unfold success_status, is_error_status. intros H.
  apply andb_false_iff. lia.
Qed.

Lemma call_model_decoded post (prompt : string) (s : state) (req : Request)
    (r : Response) (body : value) :
  issued_request (self s) prompt = Some req ->
  post req = Responds r ->
  is_error_status (status_code r) = false ->
  json r = Ret body ->
  fst (_call_model post prompt s) = Ret (decoded_result body).
Proof.
  intros Hreq Hpost Hst Hjson.
  rewrite call_model_result. unfold call_model_outcome.
  now rewrite Hreq, Hpost, Hst, Hjson.
Qed.

Lemma call_model_error_status post (prompt : string) (s : state)
    (req : Request) (r : Response) :
  issued_request (self s) prompt = Some req ->
  post req = Responds r ->
  400 <= status_code r < 500 \/ 500 <= status_code r < 600 ->
  fst (_call_model post prompt s) = Ret VNone.
Proof.
  intros Hreq Hpost Hst.
  rewrite call_model_result. unfold call_model_outcome.
  rewrite Hreq, Hpost.
  replace (is_error_status (status_code r)) with true; [reflexivity |].
  symmetry. apply is_error_status_spec. unfold error_status. lia.
Qed.

(** C2. When the response has a status in 400-499 or 500-599, [_call_model]
    returns [None]; no exception reaches the caller. *)
Theorem error_status_returns_None post (prompt : string) (s : state)
    (req : Request) (r : Response) :
  issued_request (self s) prompt = Some req ->
  post req = Responds r ->
  400 <= status_code r < 500 \/ 500 <= status_code r < 600 ->
  fst (_call_model post prompt s) = Ret VNone.
Proof.
  exact (call_model_error_status post prompt s req r).
Qed.

(** C6. When a 2xx response decodes to a JSON object whose "output" field
    is present and not null, [_call_model] returns the value of that field
    as it is; for the mocked body [{"output": ["Generated text"]}] and the
    prompt "Hello LangChain!" the result is the one-element list holding
    "Generated text". *)
Theorem output_returned_verbatim post (prompt : string) (s : state)
    (req : Request) (r : Response) (d : gmap string value) (v : value) :
  issued_request (self s) prompt = Some req ->
  post req = Responds r ->
  success_status (status_code r) ->
  json r = Ret (VDict d) ->
  d !! "output" = Some v ->
  v <> VNone ->
  fst (_call_model post prompt s) = Ret v
  /\ fst (_call_model (requests_mock mocked_url generated_text_response)
            "Hello LangChain!" test_state)
     = Ret (VList [VStr "Generated text"]).
Proof.
  intros Hreq Hpost Hst Hjson Hd Hv. split; [| reflexivity].
  rewrite (call_model_decoded post prompt s req r (VDict d));
    auto using success_not_error.
  unfold decoded_result, answers_sentinel. rewrite Hd.
  destruct v; simpl; congruence.
Qed.

(** C1, as amended. When a 2xx response decodes to a JSON object that has
    no "output" key or a null "output" (or to an array without the element
    "output", or to a string without the substring "output"),
    [_call_model] returns the string "No output generated", which differs
    from [None]. On the other bodies without an "output" field (null, a
    boolean, a number, an array holding "output", a string containing
    "output") the membership test or the subscript raises, the catch-all
    handler takes the exception, and the call returns [None]. *)
Theorem no_output_sentinel post (prompt : string) (s : state)
    (req : Request) (r : Response) (body : value) :
  issued_request (self s) prompt = Some req ->
  post req = Responds r ->
  success_status (status_code r) ->
  json r = Ret body ->
  lacks_output body ->
  fst (_call_model post prompt s)
  = Ret (if answers_sentinel body then no_output_generated else VNone)
  /\ (forall d, body = VDict d -> answers_sentinel body = true)
  /\ no_output_generated <> VNone.
Proof.
  intros Hreq Hpost Hst Hjson Hlack.
  assert (Hobj : forall d, body = VDict d -> answers_sentinel body = true).
  { intros d ->. simpl in *. destruct Hlack as [-> | ->]; reflexivity. }
  split; [| split; [exact Hobj | discriminate]].
  rewrite (call_model_decoded post prompt s req r body);
    auto using success_not_error.
  unfold decoded_result.
  destruct (answers_sentinel body) eqn:E; [reflexivity |].
  destruct body; try reflexivity.
  discriminate (Hobj _ eq_refl).
Qed.

(** C3, as amended. A transport-level exception of the [requests]
    hierarchy (a [RequestException] other than [HTTPError]) raised by
    [requests.post], an HTTP error status, and a body that does not decode
    as JSON are each absorbed: [_call_model] returns [None]. Whenever
    [requests.post] returns a response, or raises such an exception,
    [_call_model] returns a value. An exception of [requests.post] from
    outside the [RequestException] hierarchy is not absorbed: it reaches the
    caller unchanged. *)
Theorem failures_absorbed post (prompt : string) (s : state) (req : Request) :
  issued_request (self s) prompt = Some req ->
  (forall e, post req = Raises e -> transport_level e = true ->
             fst (_call_model post prompt s) = Ret VNone)
  /\ (forall r, post req = Responds r -> error_status (status_code r) ->
                fst (_call_model post prompt s) = Ret VNone)
  /\ (forall r e, post req = Responds r -> ~ error_status (status_code r) ->
                  json r = Exc e ->
                  fst (_call_model post prompt s) = Ret VNone)
  /\ (forall r, post req = Responds r ->
                exists v, fst (_call_model post prompt s) = Ret v)
  /\ (forall e, post req = Raises e -> isinstance e RequestException = false ->
                fst (_call_model post prompt s) = Exc e).
Proof.
  intros Hreq. rewrite call_model_result. unfold call_model_outcome.
  rewrite Hreq. repeat split.
  - intros e -> He. apply transport_level_spec in He as [-> ->]. reflexivity.
  - intros r -> Hst. apply is_error_status_spec in Hst. now rewrite Hst.
  - intros r e -> Hst Hjson. rewrite Hjson.
    destruct (is_error_status (status_code r)); reflexivity.
  - intros r ->. destruct (is_error_status (status_code r)); [eauto |].
    destruct (json r); eauto.
  - intros e -> He. rewrite He.
    destruct (isinstance e HTTPError) eqn:Hh; [| reflexivity].
    destruct e as [c m]; destruct c; simpl in *; discriminate.
Qed.


(** C10. [_call_model] assigns no attribute of the adapter: after any
    invocation [name], [fullname], [generations], [config_hash] and
    [api_endpoint] read as before, and a second identical invocation against
    an endpoint that answers the request in the same way yields the same
    result. *)
Theorem call_model_is_read_only post (prompt : string) (s : state) :
  self (snd (_call_model post prompt s)) = self s
  /\ name (self (snd (_call_model post prompt s))) = name (self s)
  /\ fullname (self (snd (_call_model post prompt s))) = fullname (self s)
  /\ generations (self (snd (_call_model post prompt s))) = generations (self s)
  /\ fst (self_config_hash (snd (_call_model post prompt s)))
     = fst (self_config_hash s)
  /\ api_endpoint (self (snd (_call_model post prompt s))) = api_endpoint (self s)
  /\ forall post',
       (forall req, issued_request (self s) prompt = Some req ->
                    post' req = post req) ->
       fst (_call_model post' prompt (snd (_call_model post prompt s)))
       = fst (_call_model post prompt s).
Proof.
  destruct (read_only_call_model post prompt s) as [evs Hs].
  assert (Hself : self (snd (_call_model post prompt s)) = self s)
    by now rewrite Hs.
  repeat split; try now rewrite Hself.
  - unfold self_config_hash, bind, get_self, ret. simpl. now rewrite Hself.
  - intros post' Hsame. rewrite !call_model_result, Hself.
    unfold call_model_outcome.
    destruct (issued_request (self s) prompt) as [req |]; [| reflexivity].
    now rewrite (Hsame req eq_refl).
Qed.

(** *** The properties at the inputs of the test suite *)

Lemma validate_uri_iff_scheme_and_netloc_witness :
  exists b : bool,
    fst (_validate_uri (urlparse accept_host accept_host)
           (Some "http://127.0.0.1:8000") test_state) = Ret b
    /\ (b = true <->
        has_scheme_and_netloc (urlparse accept_host accept_host)
          (Some "http://127.0.0.1:8000")).
Proof.
  exact (proj1 validate_uri_iff_scheme_and_netloc
           (urlparse accept_host accept_host) "http://127.0.0.1:8000" test_state).
Defined.

Lemma validate_uri_never_raises_witness :
  exists (b : bool) (s' : state),
    _validate_uri (urlparse accept_host accept_host) (Some "http://[::1")
      test_state = (Ret b, s')
    /\ forall e,
         urlparse accept_host accept_host (Some "http://[::1") = Exc e ->
         b = false /\ s' = log_append test_state (LogUrlParsingError e).
Proof.
  exact (validate_uri_never_raises (urlparse accept_host accept_host)
           (Some "http://[::1") test_state).
Defined.

Lemma init_rejects_invalid_uri_witness :
  exists log',
    instantiate (urlparse accept_host accept_host) Generator__init__model
      "test-generator" DEFAULT_GENERATIONS_QTY ∅ [] = (Exc invalid_endpoint, log').
Proof.
  apply (init_rejects_invalid_uri accept_host accept_host
           Generator__init__model "test-generator" DEFAULT_GENERATIONS_QTY ∅ []).
  left. reflexivity.
Defined.

Lemma api_endpoint_is_uri_invoke_witness :
  api_endpoint test_generator = Some "http://127.0.0.1:8000/invoke".
Proof.
  apply (api_endpoint_is_uri_invoke accept_host accept_host
           Generator__init__model "test-generator" DEFAULT_GENERATIONS_QTY
           test_environ [] [] test_generator).
  - intros n g s. reflexivity.
  - reflexivity.
  - reflexivity.
Defined.

Lemma output_returned_verbatim_witness :
  fst (_call_model (requests_mock mocked_url generated_text_response)
         "Hello LangChain!" test_state)
  = Ret (VList [VStr "Generated text"]).
Proof.
  apply (output_returned_verbatim
           (requests_mock mocked_url generated_text_response)
           "Hello LangChain!" test_state (test_request "Hello LangChain!")
           generated_text_response
           {[ "output" := VList [VStr "Generated text"] ]}
           (VList [VStr "Generated text"])).
  - reflexivity.
  - reflexivity.
  - unfold success_status. simpl. lia.
  - reflexivity.
  - reflexivity.
  - discriminate.
Defined.

Lemma error_status_returns_None_witness :
  fst (_call_model (requests_mock mocked_url server_error_response)
         "This should raise an error" test_state)
  = Ret VNone.
Proof.
  apply (error_status_returns_None
           (requests_mock mocked_url server_error_response)
           "This should raise an error" test_state
           (test_request "This should raise an error") server_error_response).
  - reflexivity.
  - reflexivity.
  - right. simpl. lia.
Defined.

Lemma no_output_sentinel_witness :
  fst (_call_model (requests_mock mocked_url empty_object_response)
         "This should not find output" test_state)
  = Ret no_output_generated.
Proof.
  refine (proj1 (no_output_sentinel
                   (requests_mock mocked_url empty_object_response)
                   "This should not find output" test_state
                   (test_request "This should not find output")
                   empty_object_response (VDict ∅) _ _ _ _ _)).
  - reflexivity.
  - reflexivity.
  - unfold success_status. simpl. lia.
  - reflexivity.
  - left. reflexivity.
Defined.

(** C1 as stated fails on a body that is JSON without being an object: the
    200 response with body [null] has no "output" field, and [_call_model]
    returns [None] for it, not "No output generated". *)
Lemma null_body_returns_None :
  issued_request (self test_state) "prompt" = Some (test_request "prompt")
  /\ requests_mock mocked_url null_response (test_request "prompt")
     = Responds null_response
  /\ success_status (status_code null_response)
  /\ json null_response = Ret VNone
  /\ lacks_output VNone
  /\ fst (_call_model (requests_mock mocked_url null_response) "prompt"
            test_state) = Ret VNone
  /\ fst (_call_model (requests_mock mocked_url null_response) "prompt"
            test_state) <> Ret no_output_generated.
Proof.
  repeat split; try reflexivity; discriminate.
Qed.

Lemma failures_absorbed_witness :
  fst (_call_model unreachable "Hello LangChain!" test_state) = Ret VNone
  /\ fst (_call_model (requests_mock mocked_url server_error_response)
            "Hello LangChain!" test_state) = Ret VNone
  /\ fst (_call_model (requests_mock mocked_url undecodable_response)
            "Hello LangChain!" test_state) = Ret VNone.
Proof.
  split; [| split].
  - apply (proj1 (failures_absorbed unreachable "Hello LangChain!" test_state
                    (test_request "Hello LangChain!") eq_refl)
             (mkExn ConnectionError "Connection refused"));
      reflexivity.
  - apply (proj1 (proj2 (failures_absorbed
                           (requests_mock mocked_url server_error_response)
                           "Hello LangChain!" test_state
                           (test_request "Hello LangChain!") eq_refl))
             server_error_response); [reflexivity |].
    unfold error_status. simpl. lia.
  - apply (proj1 (proj2 (proj2 (failures_absorbed
                           (requests_mock mocked_url undecodable_response)
                           "Hello LangChain!" test_state
                           (test_request "Hello LangChain!") eq_refl)))
             undecodable_response
             (mkExn RequestsJSONDecodeError
                "Expecting value: line 1 column 1 (char 0)"));
      [reflexivity | | reflexivity].
    unfold error_status. simpl. lia.
Defined.



(** C3 as stated fails on an exception of [requests.post] that is not a
    [RequestException]: no [except] clause takes it, and it reaches the
    caller of [_call_model]. *)
Lemma foreign_exception_reaches_caller :
  issued_request (self test_state) "Hello LangChain!"
  = Some (test_request "Hello LangChain!")
  /\ leaking (test_request "Hello LangChain!")
     = Raises (mkExn ValueError "check_hostname requires server_hostname")
  /\ isinstance (mkExn ValueError "check_hostname requires server_hostname")
       HTTPError = false
  /\ fst (_call_model leaking "Hello LangChain!" test_state)
     = Exc (mkExn ValueError "check_hostname requires server_hostname")
  /\ forall v, fst (_call_model leaking "Hello LangChain!" test_state) <> Ret v.
Proof. repeat split. intros v. discriminate. Qed.

Lemma call_model_is_read_only_witness :
  self (snd (_call_model (requests_mock mocked_url generated_text_response)
               "Hello LangChain!" test_state)) = test_generator
  /\ fst (_call_model (requests_mock mocked_url generated_text_response)
            "Hello LangChain!"
            (snd (_call_model (requests_mock mocked_url generated_text_response)
                    "Hello LangChain!" test_state)))
     = fst (_call_model (requests_mock mocked_url generated_text_response)
              "Hello LangChain!" test_state).
Proof.
  pose proof (call_model_is_read_only
                (requests_mock mocked_url generated_text_response)
                "Hello LangChain!" test_state) as (H1 & _ & _ & _ & _ & _ & H7).
  split; [exact H1 |].
  apply H7. intros req _. reflexivity.
Defined.

(** ** Further properties of the module *)

(** *** [_call_model]: what each path returns and logs *)

Lemma call_model_responds post (prompt : string) (s : state) (req : Request)
    (r : Response) :
  issued_request (self s) prompt = Some req ->
  post req = Responds r ->
  _call_model post prompt s =
    match raise_for_status r with
    | Ret _ => process_response (Some r) s
    | Exc e =>
        match except_clauses (Some r) prompt e s with
        | (Ret (Return v), s') => (Ret v, s')
        | (Ret (Continue response), s') => process_response response s'
        | (Exc e', s') => (Exc e', s')
        end
    end.
Proof.
  intros Hreq Hpost.
  unfold _call_model, bind, send, post_request.
  rewrite build_request_run, Hreq, Hpost.
  destruct (raise_for_status r) as [[] | e]; [reflexivity |].
  destruct (except_clauses (Some r) prompt e s) as [[[resp | v] | e'] s'];
    reflexivity.
Qed.

Lemma call_model_raises post (prompt : string) (s : state) (req : Request)
    (e : exn) :
  issued_request (self s) prompt = Some req ->
  post req = Raises e ->
  _call_model post prompt s =
    if isinstance e HTTPError then (Exc (unbound_local "response"), s)
    else if isinstance e RequestException
         then (Ret VNone, log_append s (LogRequestFailed e))
         else (Exc e, s).
Proof.
  intros Hreq Hpost.
  unfold _call_model, bind, send, post_request.
  rewrite build_request_run, Hreq, Hpost.
  unfold except_clauses.
  destruct (isinstance e HTTPError); [reflexivity |].
  destruct (isinstance e RequestException); reflexivity.
Qed.

Lemma call_model_ok_status post (prompt : string) (s : state) (req : Request)
    (r : Response) :
  issued_request (self s) prompt = Some req ->
  post req = Responds r ->
  ~ error_status (status_code r) ->
  _call_model post prompt s = process_response (Some r) s.
Proof.
  intros Hreq Hpost Hst.
  rewrite (call_model_responds post prompt s req r Hreq Hpost).
  now rewrite raise_for_status_ok.
Qed.

Lemma process_response_object (r : Response) (s : state)
    (d : gmap string value) :
  json r = Ret (VDict d) ->
  process_response (Some r) s =
    match d !! "output" with
    | Some v =>
        if is_None v
        then (Ret no_output_generated, log_append s (LogNoOutput (VDict d)))
        else (Ret v, s)
    | None => (Ret no_output_generated, log_append s (LogNoOutput (VDict d)))
    end.
Proof.
  intros Hjson.
  unfold process_response, try_except, bind, lift, ret, read_response,
    logging_error.
  simpl. rewrite Hjson. simpl.
  destruct (d !! "output") as [v |]; simpl; [| reflexivity].
  destruct v; reflexivity.
Qed.

Lemma http_error_is_request_exception (e : exn) :
  isinstance e HTTPError = true -> isinstance e RequestException = true.
Proof. destruct e as [c m]; destruct c; simpl; intros H; try discriminate H; reflexivity. Qed.

Lemma call_model_error_run post (prompt : string) (s : state) (req : Request)
    (r : Response) :
  issued_request (self s) prompt = Some req ->
  post req = Responds r ->
  (400 <= status_code r < 500 ->
   _call_model post prompt s
   = (Ret VNone, log_append s (LogClientError prompt (http_error "Client" r))))
  /\ (500 <= status_code r < 600 ->
      _call_model post prompt s
      = (Ret VNone, log_append s (LogServerError prompt (http_error "Server" r)))).
Proof.
  intros Hreq Hpost.
  rewrite (call_model_responds post prompt s req r Hreq Hpost).
  unfold raise_for_status, except_clauses, http_error_handler, bind,
    logging_error, ret.
  split; intros Hst.
  - replace ((400 <=? status_code r) && (status_code r <? 500)) with true
      by (symmetry; apply andb_true_iff; lia).
    reflexivity.
  - replace ((400 <=? status_code r) && (status_code r <? 500)) with false
      by (symmetry; apply andb_false_iff; lia).
    replace ((500 <=? status_code r) && (status_code r <? 600)) with true
      by (symmetry; apply andb_true_iff; lia).
    reflexivity.
Qed.

(** X1. An error status is logged exactly once and answered with [None]:
    a status in 400-499 as a client error, a status in 500-599 as a server
    error, each with the prompt and the [HTTPError] of [raise_for_status];
    nothing else in the state changes. *)
Theorem error_status_logged_once post (prompt : string) (s : state)
    (req : Request) (r : Response) :
  issued_request (self s) prompt = Some req ->
  post req = Responds r ->
  (400 <= status_code r < 500 ->
   _call_model post prompt s
   = (Ret VNone, log_append s (LogClientError prompt (http_error "Client" r))))
  /\ (500 <= status_code r < 600 ->
      _call_model post prompt s
      = (Ret VNone, log_append s (LogServerError prompt (http_error "Server" r)))).
Proof.
  intros Hreq Hpost.
  rewrite (call_model_responds post prompt s req r Hreq Hpost).
  split; intros Hst.
  - destruct (raise_for_status_error r) as (e & He & _);
      [unfold error_status; lia |].
    unfold raise_for_status in *.
    replace ((400 <=? status_code r) && (status_code r <? 500)) with true in *
      by (symmetry; apply andb_true_iff; lia).
    unfold except_clauses, http_error_handler, bind, logging_error, ret.
    replace ((400 <=? status_code r) && (status_code r <? 500)) with true
      by (symmetry; apply andb_true_iff; lia).
    reflexivity.
  - unfold raise_for_status.
    replace ((400 <=? status_code r) && (status_code r <? 500)) with false
      by (symmetry; apply andb_false_iff; lia).
    replace ((500 <=? status_code r) && (status_code r <? 600)) with true
      by (symmetry; apply andb_true_iff; lia).
    unfold except_clauses, http_error_handler, bind, logging_error, ret.
    replace ((400 <=? status_code r) && (status_code r <? 500)) with false
      by (symmetry; apply andb_false_iff; lia).
    replace ((500 <=? status_code r) && (status_code r <? 600)) with true
      by (symmetry; apply andb_true_iff; lia).
    reflexivity.
Qed.

(** X2. A transport-level exception of [requests.post] is logged exactly
    once, as a failed request carrying that exception, and answered with
    [None]; nothing else in the state changes. *)
Theorem transport_failure_logged_once post (prompt : string) (s : state)
    (req : Request) (e : exn) :
  issued_request (self s) prompt = Some req ->
  post req = Raises e ->
  transport_level e = true ->
  _call_model post prompt s = (Ret VNone, log_append s (LogRequestFailed e)).
Proof.
  intros Hreq Hpost He.
  rewrite (call_model_raises post prompt s req e Hreq Hpost).
  apply transport_level_spec in He as [-> ->]. reflexivity.
Qed.

(** X3. An exception of [requests.post] from outside the [requests]
    hierarchy is not absorbed: it leaves [_call_model] as it is, and nothing
    is logged. *)
Theorem foreign_exception_propagates post (prompt : string) (s : state)
    (req : Request) (e : exn) :
  issued_request (self s) prompt = Some req ->
  post req = Raises e ->
  isinstance e RequestException = false ->
  _call_model post prompt s = (Exc e, s).
Proof.
  intros Hreq Hpost He.
  rewrite (call_model_raises post prompt s req e Hreq Hpost), He.
  destruct (isinstance e HTTPError) eqn:Hh; [| reflexivity].
  apply http_error_is_request_exception in Hh. congruence.
Qed.

(** X4. The success test is "no error status", not "2xx": for every status
    code outside 400-599 (1xx, 3xx, 600 and above included) an object body
    with a non-null "output" makes [_call_model] return that value, and on
    this path nothing is logged and the state is left as it was. *)
Theorem output_returned_silently post (prompt : string) (s : state)
    (req : Request) (r : Response) (d : gmap string value) (v : value) :
  issued_request (self s) prompt = Some req ->
  post req = Responds r ->
  ~ error_status (status_code r) ->
  json r = Ret (VDict d) ->
  d !! "output" = Some v ->
  v <> VNone ->
  _call_model post prompt s = (Ret v, s).
Proof.
  intros Hreq Hpost Hst Hjson Hd Hv.
  rewrite (call_model_ok_status post prompt s req r Hreq Hpost Hst).
  rewrite (process_response_object r s d Hjson), Hd.
  destruct v; try reflexivity. congruence.
Qed.

(** X5. When the body is an object without "output", or with a null
    "output", the sentinel is returned and the decoded body is logged once
    as having no output. *)
Theorem missing_output_logged_once post (prompt : string) (s : state)
    (req : Request) (r : Response) (d : gmap string value) :
  issued_request (self s) prompt = Some req ->
  post req = Responds r ->
  ~ error_status (status_code r) ->
  json r = Ret (VDict d) ->
  d !! "output" = None \/ d !! "output" = Some VNone ->
  _call_model post prompt s
  = (Ret no_output_generated, log_append s (LogNoOutput (VDict d))).
Proof.
  intros Hreq Hpost Hst Hjson Hd.
  rewrite (call_model_ok_status post prompt s req r Hreq Hpost Hst).
  rewrite (process_response_object r s d Hjson).
  destruct Hd as [-> | ->]; reflexivity.
Qed.

(** X6. When [response.json()] raises, the call returns [None] and logs
    once: a [JSONDecodeError] as a decoding failure together with the raw
    text of the response, any other exception as an unexpected error. *)
Theorem undecodable_body_logged_once post (prompt : string) (s : state)
    (req : Request) (r : Response) (e : exn) :
  issued_request (self s) prompt = Some req ->
  post req = Responds r ->
  ~ error_status (status_code r) ->
  json r = Exc e ->
  _call_model post prompt s
  = (Ret VNone,
     log_append s (if isinstance e JSONDecodeError
                   then LogJsonDecodeFailed (text r) e
                   else LogUnexpected e)).
Proof.
  intros Hreq Hpost Hst Hjson.
  rewrite (call_model_ok_status post prompt s req r Hreq Hpost Hst).
  unfold process_response, try_except, bind, lift, ret, read_response,
    logging_error.
  simpl. rewrite Hjson. simpl.
  destruct (isinstance e JSONDecodeError); [reflexivity |].
  now rewrite isinstance_Exception.
Qed.

(** X7. A body that decodes to a JSON scalar (null, a boolean, a number)
    makes the membership test raise [TypeError]; the call logs it once as
    an unexpected error and returns [None]. *)
Theorem scalar_body_logged_as_unexpected post (prompt : string) (s : state)
    (req : Request) (r : Response) (body : value) :
  issued_request (self s) prompt = Some req ->
  post req = Responds r ->
  ~ error_status (status_code r) ->
  json r = Ret body ->
  type_name body = "NoneType" \/ type_name body = "bool"
  \/ type_name body = "int" \/ type_name body = "float" ->
  _call_model post prompt s
  = (Ret VNone,
     log_append s
       (LogUnexpected
          (mkExn TypeError
             ("argument of type '" +:+ type_name body +:+ "' is not iterable")))).
Proof.
  intros Hreq Hpost Hst Hjson Hty.
  rewrite (call_model_ok_status post prompt s req r Hreq Hpost Hst).
  unfold process_response, try_except, bind, lift, ret, read_response,
    logging_error.
  simpl. rewrite Hjson.
  destruct body; simpl in Hty;
    try (destruct Hty as [Hty | [Hty | [Hty | Hty]]]; discriminate Hty);
    reflexivity.
Qed.

(** X8. For an object body the call never returns [None]: whatever the
    object holds, the result is the non-null "output" or the sentinel. *)
Theorem object_body_never_None post (prompt : string) (s : state)
    (req : Request) (r : Response) (d : gmap string value) :
  issued_request (self s) prompt = Some req ->
  post req = Responds r ->
  ~ error_status (status_code r) ->
  json r = Ret (VDict d) ->
  exists v, fst (_call_model post prompt s) = Ret v /\ v <> VNone.
Proof.
  intros Hreq Hpost Hst Hjson.
  rewrite (call_model_ok_status post prompt s req r Hreq Hpost Hst).
  rewrite (process_response_object r s d Hjson).
  destruct (d !! "output") as [v |].
  - destruct v; simpl; eexists; (split; [reflexivity | discriminate]).
  - simpl. eexists. split; [reflexivity | discriminate].
Qed.

(** X9. A result that is neither [None] nor the sentinel is genuine: the
    endpoint answered without an error status, the body decoded to an
    object, and the result is the value stored under "output". *)
Theorem result_is_genuine_output post (prompt : string) (s : state)
    (req : Request) (v : value) :
  issued_request (self s) prompt = Some req ->
  fst (_call_model post prompt s) = Ret v ->
  v <> VNone ->
  v <> no_output_generated ->
  exists r d,
    post req = Responds r
    /\ ~ error_status (status_code r)
    /\ json r = Ret (VDict d)
    /\ d !! "output" = Some v.
Proof.
  intros Hreq Hres Hnone Hsent.
  rewrite call_model_result in Hres. unfold call_model_outcome in Hres.
  rewrite Hreq in Hres.
  destruct (post req) as [e | r].
  - destruct (isinstance e HTTPError); [discriminate Hres |].
    destruct (isinstance e RequestException); congruence.
  - destruct (is_error_status (status_code r)) eqn:Hst; [congruence |].
    destruct (json r) as [body | e] eqn:Hjson; [| congruence].
    injection Hres as Hres. unfold decoded_result in Hres.
    destruct (answers_sentinel body); [congruence |].
    destruct body as [| | | | | | d]; try congruence.
    exists r, d. split; [reflexivity |]. split; [| split].
    + rewrite <- is_error_status_spec. congruence.
    + exact Hjson.
    + destruct (d !! "output") as [w |]; simpl in Hres; congruence.
Qed.

Lemma process_response_one_event (r : Response) (s : state) :
  exists evs : list log_event,
    (List.length evs <= 1)%nat
    /\ snd (process_response (Some r) s)
       = {| environ := environ s; self := self s; logged := logged s ++ evs |}.
Proof.
  assert (H0 : exists evs : list log_event, (List.length evs <= 1)%nat
            /\ s = {| environ := environ s; self := self s;
                      logged := logged s ++ evs |}).
  { exists []. split; [simpl; lia | apply state_eta]. }
  assert (H1 : forall ev, exists evs : list log_event, (List.length evs <= 1)%nat
            /\ log_append s ev = {| environ := environ s; self := self s;
                                    logged := logged s ++ evs |}).
  { intros ev. exists [ev]. split; [simpl; lia | reflexivity]. }
  unfold process_response, try_except, bind, lift, ret, read_response,
    logging_error.
  simpl. destruct (json r) as [body | e]; simpl.
  - destruct body as [| b | n | x | t | l | d]; simpl; try apply H1.
    + destruct (is_substring "output" t); simpl; apply H1.
    + destruct (existsb (eq_str "output") l); simpl; apply H1.
    + destruct (d !! "output") as [v |]; simpl; [| apply H1].
      destruct v; simpl; first [apply H1 | apply H0].
  - destruct (isinstance e JSONDecodeError); simpl; [apply H1 |].
    rewrite isinstance_Exception. apply H1.
Qed.

(** X10. One invocation writes at most one log event, whatever the endpoint
    does and whatever state the adapter is in, and changes nothing else. *)
Theorem call_model_logs_at_most_once post (prompt : string) (s : state) :
  exists evs : list log_event,
    (List.length evs <= 1)%nat
    /\ snd (_call_model post prompt s)
       = {| environ := environ s; self := self s; logged := logged s ++ evs |}.
Proof.
  assert (H0 : exists evs : list log_event, (List.length evs <= 1)%nat
            /\ s = {| environ := environ s; self := self s;
                      logged := logged s ++ evs |}).
  { exists []. split; [simpl; lia | apply state_eta]. }
  assert (H1 : forall ev, exists evs : list log_event, (List.length evs <= 1)%nat
            /\ log_append s ev = {| environ := environ s; self := self s;
                                    logged := logged s ++ evs |}).
  { intros ev. exists [ev]. split; [simpl; lia | reflexivity]. }
  destruct (issued_request (self s) prompt) as [req |] eqn:Hreq.
  - destruct (post req) as [e | r] eqn:Hpost.
    + rewrite (call_model_raises post prompt s req e Hreq Hpost).
      destruct (isinstance e HTTPError); [exact H0 |].
      destruct (isinstance e RequestException); [apply H1 | exact H0].
    + destruct (is_error_status (status_code r)) eqn:Hst.
      * apply is_error_status_spec in Hst. unfold error_status in Hst.
        destruct (call_model_error_run post prompt s req r Hreq Hpost)
          as [Hc Hs].
        destruct (Z_lt_ge_dec (status_code r) 500) as [Hlt | Hge].
        -- rewrite Hc by lia. apply H1.
        -- rewrite Hs by lia. apply H1.
      * rewrite (call_model_ok_status post prompt s req r Hreq Hpost).
        -- apply process_response_one_event.
        -- rewrite <- is_error_status_spec. congruence.
  - unfold _call_model, bind, send, post_request.
    rewrite build_request_run, Hreq. exact H0.
Qed.

(** *** Construction *)

Lemma init_invalid_run up G (n : string) (gens : Z) (s : state) :
  ~ has_scheme_and_netloc up (environ s !! LANGCHAIN_SERVE_URI) ->
  __init__ up G n gens s =
    (Exc invalid_endpoint,
     match up (environ s !! LANGCHAIN_SERVE_URI) with
     | Ret _ => with_self s (named (self s) n gens)
     | Exc e =>
         log_append (with_self s (named (self s) n gens)) (LogUrlParsingError e)
     end).
Proof.
  intros H. rewrite init_run.
  set (s1 := with_self _ _).
  rewrite <- (validate_uri_true up _ s1) in H.
  rewrite validate_uri_run in *.
  destruct (up (environ s !! LANGCHAIN_SERVE_URI)) as [r | e]; simpl in *.
  - destruct (truthy (scheme r) && truthy (netloc r)); [congruence | reflexivity].
  - reflexivity.
Qed.

Lemma init_sets_attributes_aux up G (n : string) (gens : Z)
    (env : gmap string string) (log log' : list log_event)
    (g : LangChainServeLLMGenerator) :
  preserves_self G ->
  instantiate up G n gens env log = (Ret g, log') ->
  g = {| name := Some n;
         fullname := Some ("LangChain Serve LLM " +:+ n);
         generations := Some gens;
         api_endpoint :=
           Some (format_opt (env !! LANGCHAIN_SERVE_URI) +:+ "/invoke");
         config_hash_attr := None |}.
Proof.
  intros HG. unfold instantiate. rewrite init_run. simpl.
  rewrite validate_uri_run.
  destruct (up (env !! LANGCHAIN_SERVE_URI)) as [r | e]; simpl;
    [| discriminate].
  destruct (truthy (scheme r) && truthy (netloc r)); [| discriminate].
  match goal with |- context [G n gens ?s0] => specialize (HG n gens s0) end.
  destruct (G n gens _) as [[[] | e] s2]; simpl in *; [| discriminate].
  intros [= <- <-]. exact HG.
Qed.

(** X11. After a successful construction the instance holds the name it
    was given, the full name "LangChain Serve LLM " followed by the name,
    the generation count, the endpoint, and no instance-level
    [config_hash]; the base-class initialiser is any function that leaves
    the attributes alone. *)
Theorem init_sets_attributes up G (n : string) (gens : Z)
    (env : gmap string string) (log log' : list log_event)
    (g : LangChainServeLLMGenerator) :
  preserves_self G ->
  instantiate up G n gens env log = (Ret g, log') ->
  g = {| name := Some n;
         fullname := Some ("LangChain Serve LLM " +:+ n);
         generations := Some gens;
         api_endpoint :=
           Some (format_opt (env !! LANGCHAIN_SERVE_URI) +:+ "/invoke");
         config_hash_attr := None |}.
Proof.
  intros HG E.
  destruct (instantiate_valid up G n gens env log log' g) as [_ Hep];
    [intros n0 g0 s0; now rewrite HG | exact E |].
  unfold instantiate in E. rewrite init_run in E. simpl in E.
  rewrite validate_uri_run in E.
  destruct (up (env !! LANGCHAIN_SERVE_URI)) as [r | e]; simpl in E;
    [| discriminate E].
  destruct (truthy (scheme r) && truthy (netloc r)); [| discriminate E].
  match type of E with context [G n gens ?s0] => specialize (HG n gens s0) end.
  destruct (G n gens _) as [[[] | e] s2]; simpl in *; [| discriminate E].
  injection E as <- <-. exact HG.
Qed.

(** X12. When the URI is rejected, [__init__] raises before it reaches the
    base-class initialiser, which therefore never runs: the outcome does not
    depend on it. The object is left half-initialised, with [name],
    [fullname] and [generations] assigned and [api_endpoint] untouched. *)
Theorem init_failure_skips_base_class up G (n : string) (gens : Z) (s : state) :
  ~ has_scheme_and_netloc up (environ s !! LANGCHAIN_SERVE_URI) ->
  (forall G', __init__ up G' n gens s = __init__ up G n gens s)
  /\ fst (__init__ up G n gens s) = Exc invalid_endpoint
  /\ name (self (snd (__init__ up G n gens s))) = Some n
  /\ fullname (self (snd (__init__ up G n gens s)))
     = Some ("LangChain Serve LLM " +:+ n)
  /\ generations (self (snd (__init__ up G n gens s))) = Some gens
  /\ api_endpoint (self (snd (__init__ up G n gens s))) = api_endpoint (self s)
  /\ environ (snd (__init__ up G n gens s)) = environ s.
Proof.
  intros H. split.
  - intros G'. now rewrite !init_invalid_run.
  - rewrite init_invalid_run by exact H.
    destruct (up (environ s !! LANGCHAIN_SERVE_URI)); repeat split.
Qed.

(** X13. A rejected URI is reported in the log only when parsing it raised:
    then the parse error is logged once before the configuration error is
    raised; when parsing returned components that fail the test, the
    configuration error is raised with the log unchanged. *)
Theorem init_failure_log up G (n : string) (gens : Z)
    (env : gmap string string) (log : list log_event) :
  ~ has_scheme_and_netloc up (env !! LANGCHAIN_SERVE_URI) ->
  instantiate up G n gens env log =
    (Exc invalid_endpoint,
     match up (env !! LANGCHAIN_SERVE_URI) with
     | Ret _ => log
     | Exc e => (log ++ [LogUrlParsingError e])%list
     end).
Proof.
  intros H. unfold instantiate.
  rewrite init_invalid_run by exact H. simpl.
  destruct (up (env !! LANGCHAIN_SERVE_URI)); reflexivity.
Qed.

Lemma append_append (a b c : string) : (a +:+ b) +:+ c = a +:+ (b +:+ c).
Proof.
  induction a as [| x a IH]; [reflexivity |].
  change (String x ((a +:+ b) +:+ c) = String x (a +:+ (b +:+ c))).
  now rewrite IH.
Qed.

(** X14. For an adapter constructed from the base URI [uri],
    [_call_model] builds the request to [uri/invoke?config_hash=default],
    with the JSON content-type and accept headers and a body holding
    exactly the three keys "input" (the prompt), "config" and "kwargs" (two
    empty objects); the body of its first [try] hands exactly that request
    to [requests.post], and the call depends on the network only through
    the answer to that request. *)
Theorem constructed_adapter_request check_host check_nfkc G (n : string)
    (gens : Z) (env : gmap string string) (log log' : list log_event)
    (g : LangChainServeLLMGenerator) (prompt : string) :
  preserves_self G ->
  instantiate (urlparse check_host check_nfkc) G n gens env log = (Ret g, log') ->
  exists uri body req,
    env !! LANGCHAIN_SERVE_URI = Some uri
    /\ req = {| req_url := uri +:+ "/invoke?config_hash=default";
                req_headers := [("Content-Type", "application/json");
                                ("Accept", "application/json")];
                req_data := VDict body |}
    /\ body !! "input" = Some (VStr prompt)
    /\ body !! "config" = Some (VDict ∅)
    /\ body !! "kwargs" = Some (VDict ∅)
    /\ dom body = {[ "input"; "config"; "kwargs" ]}
    /\ (forall s, self s = g -> build_request prompt s = (Ret req, s))
    /\ (forall post s, self s = g ->
          post_request post prompt s
          = match post req with
            | Raises e => ((None, Exc e), s)
            | Responds r => ((Some r, raise_for_status r), s)
            end)
    /\ (forall post post' s, self s = g -> post req = post' req ->
          _call_model post prompt s = _call_model post' prompt s).
Proof.
  intros HG E.
  pose proof (init_sets_attributes_aux _ G n gens env log log' g HG E) as ->.
  assert (Hv : has_scheme_and_netloc (urlparse check_host check_nfkc)
                 (env !! LANGCHAIN_SERVE_URI)).
  { eapply (instantiate_valid _ G n gens env log log'); [| exact E].
    intros n0 g0 s0. now rewrite HG. }
  destruct (env !! LANGCHAIN_SERVE_URI) as [uri |] eqn:Henv;
    [| exfalso; exact (urlparse_unset _ _ Hv)].
  exists uri,
    (<["input" := VStr prompt]>
       (<["config" := VDict ∅]> (<["kwargs" := VDict ∅]> ∅))),
    {| req_url := uri +:+ "/invoke?config_hash=default";
       req_headers := [("Content-Type", "application/json");
                       ("Accept", "application/json")];
       req_data :=
         VDict (<["input" := VStr prompt]>
                  (<["config" := VDict ∅]> (<["kwargs" := VDict ∅]> ∅))) |}.
  split; [reflexivity |]. split; [reflexivity |].
  do 4 (split; [reflexivity |]).
  assert (Hbuild : forall s,
            self s
            = {| name := Some n;
                 fullname := Some ("LangChain Serve LLM " +:+ n);
                 generations := Some gens;
                 api_endpoint := Some (format_opt (Some uri) +:+ "/invoke");
                 config_hash_attr := None |} ->
            build_request prompt s
            = (Ret {| req_url := uri +:+ "/invoke?config_hash=default";
                      req_headers := [("Content-Type", "application/json");
                                      ("Accept", "application/json")];
                      req_data :=
                        VDict (<["input" := VStr prompt]>
                                 (<["config" := VDict ∅]>
                                    (<["kwargs" := VDict ∅]> ∅))) |}, s)).
  { intros s Hself. rewrite build_request_run, Hself.
    unfold issued_request, the_request, payload. simpl.
    now rewrite append_append. }
  split; [exact Hbuild |]. split.
  - intros post s Hself. unfold post_request.
    rewrite (Hbuild s Hself). reflexivity.
  - intros post post' s Hself Hsame.
    unfold _call_model, bind, send, post_request.
    rewrite (Hbuild s Hself), Hsame. reflexivity.
Qed.

(** *** [_validate_uri] over CPython's [urlparse] *)

Lemma app_cons (x : ascii) (a b : string) :
  String x a +:+ b = String x (a +:+ b).
Proof. reflexivity. Qed.

Lemma app_nil_l_str (b : string) : EmptyString +:+ b = b.
Proof. reflexivity. Qed.

Lemma lstrip_blank_prefix (ws uri : string) :
  str_forallb is_blank ws = true ->
  lstrip_c0_or_space (ws +:+ uri) = lstrip_c0_or_space uri.
Proof.
  induction ws as [| c ws IH]; [reflexivity |].
  rewrite app_cons. simpl. intros H.
  apply andb_true_iff in H as [Hc Hws].
  unfold is_blank in Hc. rewrite Hc. auto.
Qed.

Lemma cleaned_unsafe_inside (a b : string) (c : ascii) :
  is_unsafe c = true ->
  cleaned (a +:+ String c b) = cleaned (a +:+ b).
Proof.
  intros Hc. unfold cleaned.
  assert (Hblank : (code c <=? 32)%nat = true).
  { unfold is_unsafe in Hc. apply Nat.leb_le.
    repeat (apply orb_true_iff in Hc as [Hc | Hc]);
      apply Nat.eqb_eq in Hc; lia. }
  assert (Hfilter : forall x,
             remove_unsafe (x +:+ String c b) = remove_unsafe (x +:+ b)).
  { induction x as [| y x IHx].
    - rewrite !app_nil_l_str. unfold remove_unsafe. simpl.
      unfold is_unsafe in Hc. now rewrite Hc.
    - rewrite !app_cons. unfold remove_unsafe in *. simpl.
      now rewrite IHx. }
  induction a as [| x a IH].
  - rewrite !app_nil_l_str. simpl. now rewrite Hblank.
  - rewrite !app_cons. simpl.
    destruct (code x <=? 32)%nat; [exact IH |].
    rewrite <- !app_cons. apply Hfilter.
Qed.

Lemma urlsplit_cleaned check_host check_nfkc (u1 u2 : string) :
  cleaned u1 = cleaned u2 ->
  urlsplit check_host check_nfkc u1 = urlsplit check_host check_nfkc u2.
Proof. unfold urlsplit, cleaned. now intros ->. Qed.

Lemma validate_uri_cleaned check_host check_nfkc (u1 u2 : string) (s : state) :
  cleaned u1 = cleaned u2 ->
  _validate_uri (urlparse check_host check_nfkc) (Some u1) s
  = _validate_uri (urlparse check_host check_nfkc) (Some u2) s.
Proof.
  intros H. rewrite !validate_uri_run. unfold urlparse. simpl.
  now rewrite (urlsplit_cleaned _ _ u1 u2 H).
Qed.

(** X15. Validation does not see leading blanks (space and the control
    characters below it) nor a tab, carriage return or line feed anywhere in
    the string: with or without them the verdict and the log are the
    same. *)
Theorem validate_uri_ignores_blanks check_host check_nfkc (s : state) :
  (forall ws uri,
      str_forallb is_blank ws = true ->
      _validate_uri (urlparse check_host check_nfkc) (Some (ws +:+ uri)) s
      = _validate_uri (urlparse check_host check_nfkc) (Some uri) s)
  /\ (forall a b c,
        is_unsafe c = true ->
        _validate_uri (urlparse check_host check_nfkc) (Some (a +:+ String c b)) s
        = _validate_uri (urlparse check_host check_nfkc) (Some (a +:+ b)) s).
Proof.
  split.
  - intros ws uri H. apply validate_uri_cleaned. unfold cleaned.
    now rewrite lstrip_blank_prefix.
  - intros a b c H. apply validate_uri_cleaned.
    now apply cleaned_unsafe_inside.
Qed.

Lemma urlsplit_components check_host check_nfkc (url0 : string)
    (r : ParseResult) :
  urlsplit check_host check_nfkc url0 = Ret r ->
  scheme r = fst (split_scheme (cleaned url0))
  /\ netloc r
     = (if String.eqb (str_take 2 (snd (split_scheme (cleaned url0)))) "//"
        then fst (_splitnetloc (snd (split_scheme (cleaned url0))) 2)
        else EmptyString).
Proof.
  unfold urlsplit. fold (cleaned url0).
  change (match find ":" (cleaned url0) with
          | Some (S i') =>
              match cleaned url0 with
              | String c _ =>
                  if is_ascii_alpha c
                     && str_forallb is_scheme_char (str_take (S i') (cleaned url0))
                  then (lower (str_take (S i') (cleaned url0)),
                        str_drop (S (S i')) (cleaned url0))
                  else (EmptyString, cleaned url0)
              | EmptyString => (EmptyString, cleaned url0)
              end
          | _ => (EmptyString, cleaned url0)
          end) with (split_scheme (cleaned url0)).
  destruct (split_scheme (cleaned url0)) as [sc url]. simpl.
  intros H. repeat case_match; simplify_eq/=; auto.
Qed.

Lemma urlparse_components check_host check_nfkc (url0 : string)
    (r : ParseResult) :
  urlparse check_host check_nfkc (Some url0) = Ret r ->
  exists r0,
    urlsplit check_host check_nfkc url0 = Ret r0
    /\ scheme r = scheme r0 /\ netloc r = netloc r0.
Proof.
  unfold urlparse. simpl.
  destruct (urlsplit check_host check_nfkc url0) as [r0 | e]; [| discriminate].
  intros H. exists r0. split; [reflexivity |].
  repeat case_match; simplify_eq/=; auto.
Qed.

Lemma validate_uri_false up (uri : option string) (s : state) :
  ~ has_scheme_and_netloc up uri -> fst (_validate_uri up uri s) = Ret false.
Proof.
  intros H. rewrite <- validate_uri_true with (s := s) in H.
  rewrite validate_uri_run in *.
  destruct (up uri) as [r | e]; simpl in *; [| reflexivity].
  destruct (truthy (scheme r) && truthy (netloc r)); congruence.
Qed.

Lemma validate_uri_rejects check_host check_nfkc (url0 : string) (s : state) :
  (forall r0, urlsplit check_host check_nfkc url0 = Ret r0 ->
              scheme r0 = EmptyString \/ netloc r0 = EmptyString) ->
  fst (_validate_uri (urlparse check_host check_nfkc) (Some url0) s) = Ret false.
Proof.
  intros H. apply validate_uri_false.
  intros (r & Hr & Hs & Hn).
  destruct (urlparse_components _ _ _ _ Hr) as (r0 & Hr0 & Es & En).
  destruct (H r0 Hr0); congruence.
Qed.

Lemma find_none_filter (c : ascii) (p : ascii -> bool) (u : string) :
  find c u = None -> find c (str_filter p u) = None.
Proof.
  induction u as [| x u IH]; simpl; [auto |].
  destruct (Ascii.eqb x c) eqn:E; [discriminate |].
  destruct (find c u); [discriminate |]. intros _.
  destruct (p x); simpl; [rewrite E |]; now rewrite IH.
Qed.

Lemma find_none_lstrip (c : ascii) (u : string) :
  find c u = None -> find c (lstrip_c0_or_space u) = None.
Proof.
  induction u as [| x u IH]; simpl; [auto |].
  destruct (Ascii.eqb x c) eqn:E; [discriminate |].
  destruct (find c u) eqn:F; [discriminate |]. intros _.
  destruct (code x <=? 32)%nat; [auto |]. simpl. now rewrite E, F.
Qed.

Lemma find_none_drop (c : ascii) (n : nat) (u : string) :
  find c u = None -> find c (str_drop n u) = None.
Proof.
  revert u. induction n as [| n IH]; intros [| x u]; simpl; auto.
  destruct (Ascii.eqb x c); [discriminate |].
  destruct (find c u) eqn:F; [discriminate |]. auto.
Qed.

Lemma find_none_cleaned (c : ascii) (u : string) :
  contains c u = false -> find c (cleaned u) = None.
Proof.
  unfold contains, cleaned, remove_unsafe. intros H.
  apply find_none_filter, find_none_lstrip.
  destruct (find c u); [discriminate | reflexivity].
Qed.

Lemma split_scheme_rest_find_none (c : ascii) (url : string) :
  find c url = None -> find c (snd (split_scheme url)) = None.
Proof.
  intros H. unfold split_scheme.
  repeat case_match; cbn [snd]; subst; auto using find_none_drop.
Qed.

Lemma no_slash_no_netloc (u : string) :
  find "/" u = None -> String.eqb (str_take 2 u) "//" = false.
Proof.
  destruct u as [| x u]; [reflexivity |]. simpl.
  destruct (Ascii.eqb x "/") eqn:Ex; [discriminate |]. intros _.
  destruct u; reflexivity.
Qed.

(** X16. A string without a colon, or without a slash, is never accepted:
    a bare host name, "host:port" and "mailto:someone" are all rejected,
    whatever else they contain. *)
Theorem validate_uri_needs_colon_and_slash check_host check_nfkc
    (uri : string) (s : state) :
  contains ":" uri = false \/ contains "/" uri = false ->
  fst (_validate_uri (urlparse check_host check_nfkc) (Some uri) s) = Ret false.
Proof.
  intros H. apply validate_uri_rejects. intros r0 Hr0.
  destruct (urlsplit_components _ _ _ _ Hr0) as [Hs Hn].
  destruct H as [H | H].
  - left. rewrite Hs. unfold split_scheme.
    now rewrite (find_none_cleaned ":" uri H).
  - right. rewrite Hn.
    pose proof (split_scheme_rest_find_none "/" _ (find_none_cleaned "/" uri H))
      as Hf.
    now rewrite (no_slash_no_netloc _ Hf).
Qed.

(** X17. A string whose first character after the leading blanks is not an
    ASCII letter is never accepted, however it continues: "127.0.0.1:8000",
    "//host/path" and "/just/a/path" have no scheme. *)
Theorem validate_uri_needs_leading_letter check_host check_nfkc
    (ws : string) (c : ascii) (rest : string) (s : state) :
  str_forallb is_blank ws = true ->
  is_blank c = false ->
  is_ascii_alpha c = false ->
  fst (_validate_uri (urlparse check_host check_nfkc)
         (Some (ws +:+ String c rest)) s) = Ret false.
Proof.
  intros Hws Hc Halpha. apply validate_uri_rejects. intros r0 Hr0.
  destruct (urlsplit_components _ _ _ _ Hr0) as [Hs _].
  left. rewrite Hs. unfold cleaned.
  rewrite (lstrip_blank_prefix ws _ Hws). simpl.
  unfold is_blank in Hc. rewrite Hc.
  unfold remove_unsafe. simpl.
  assert (Hsafe : ((code c =? 9) || (code c =? 13) || (code c =? 10))%nat = false).
  { apply Nat.leb_gt in Hc.
    repeat (apply orb_false_iff; split); apply Nat.eqb_neq; lia. }
  rewrite Hsafe. simpl.
  unfold split_scheme. rewrite Halpha. simpl.
  repeat case_match; reflexivity.
Qed.

Ltac by_cases_on_char c :=
  destruct c as [[] [] [] [] [] [] [] []]; vm_compute; congruence.

Lemma scheme_char_not_colon (c : ascii) :
  is_scheme_char c = true -> Ascii.eqb c ":" = false.
Proof. by_cases_on_char c. Qed.

Lemma scheme_char_safe (c : ascii) :
  is_scheme_char c = true -> is_unsafe c = false.
Proof. by_cases_on_char c. Qed.

Lemma alpha_is_scheme_char (c : ascii) :
  is_ascii_alpha c = true -> is_scheme_char c = true.
Proof. by_cases_on_char c. Qed.

Lemma alpha_not_blank (c : ascii) :
  is_ascii_alpha c = true -> (code c <=? 32)%nat = false.
Proof. by_cases_on_char c. Qed.

Lemma host_char_safe (c : ascii) :
  is_host_char c = true -> is_unsafe c = false.
Proof. by_cases_on_char c. Qed.

Lemma host_char_ascii (c : ascii) :
  is_host_char c = true -> (code c <? 128)%nat = true.
Proof. by_cases_on_char c. Qed.

Lemma host_char_not_delimiter (c d : ascii) :
  d ∈ ["/"; "?"; "#"; "["; "]"]%char ->
  is_host_char c = true -> Ascii.eqb c d = false.
Proof.
  intros Hd. repeat (apply elem_of_cons in Hd as [-> | Hd]);
    [by_cases_on_char c .. | by apply elem_of_nil in Hd].
Qed.

Lemma forallb_impl (p q : ascii -> bool) (u : string) :
  (forall c, p c = true -> q c = true) ->
  str_forallb p u = true -> str_forallb q u = true.
Proof.
  intros H. induction u as [| x u IH]; simpl; [auto |].
  intros Hu. apply andb_true_iff in Hu as [Hx Hu].
  apply andb_true_iff. auto.
Qed.

Lemma find_none_forallb (p : ascii -> bool) (c : ascii) (u : string) :
  (forall x, p x = true -> Ascii.eqb x c = false) ->
  str_forallb p u = true -> find c u = None.
Proof.
  intros H. induction u as [| x u IH]; simpl; [auto |].
  intros Hu. apply andb_true_iff in Hu as [Hx Hu].
  now rewrite (H x Hx), (IH Hu).
Qed.

Lemma filter_app (p : ascii -> bool) (a b : string) :
  str_filter p (a +:+ b) = str_filter p a +:+ str_filter p b.
Proof.
  induction a as [| x a IH]; [reflexivity |].
  rewrite app_cons. simpl. destruct (p x); [rewrite app_cons |]; now rewrite IH.
Qed.

Lemma filter_all (p : ascii -> bool) (a : string) :
  str_forallb p a = true -> str_filter p a = a.
Proof.
  induction a as [| x a IH]; simpl; [auto |].
  intros H. apply andb_true_iff in H as [-> H]. now rewrite IH.
Qed.

Lemma remove_unsafe_safe (p : ascii -> bool) (a : string) :
  (forall c, p c = true -> is_unsafe c = false) ->
  str_forallb p a = true -> remove_unsafe a = a.
Proof.
  intros Hp Ha. unfold remove_unsafe. apply filter_all.
  revert Ha. apply forallb_impl. intros c Hc.
  specialize (Hp c Hc). unfold is_unsafe in Hp. now rewrite Hp.
Qed.

Lemma find_app_none (c : ascii) (a b : string) :
  find c a = None ->
  find c (a +:+ b) = (fun i => (String.length a + i)%nat) <$> find c b.
Proof.
  induction a as [| x a IH]; simpl.
  - intros _. rewrite app_nil_l_str. now destruct (find c b).
  - rewrite ?app_cons. simpl. destruct (Ascii.eqb x c); [discriminate |].
    destruct (find c a) eqn:F; [discriminate |]. intros _.
    rewrite IH by reflexivity. now destruct (find c b).
Qed.

Lemma take_app_length (a b : string) : str_take (String.length a) (a +:+ b) = a.
Proof.
  induction a as [| x a IH]; simpl.
  - now destruct (EmptyString +:+ b).
  - rewrite ?app_cons. now rewrite IH.
Qed.

Lemma drop_app_length (a b : string) : str_drop (String.length a) (a +:+ b) = b.
Proof.
  induction a as [| x a IH]; simpl.
  - rewrite app_nil_l_str. now destruct b.
  - rewrite ?app_cons. exact IH.
Qed.

Lemma length_app (a b : string) :
  String.length (a +:+ b) = (String.length a + String.length b)%nat.
Proof.
  induction a as [| x a IH]; [reflexivity |].
  rewrite app_cons. simpl. now rewrite IH.
Qed.

Lemma lower_nonempty (x : ascii) (a : string) : lower (String x a) <> EmptyString.
Proof. discriminate. Qed.

Lemma foldl_min_delims (f : ascii -> option nat) (l : list ascii) (m : nat) :
  forall base : nat,
    (m <= base)%nat ->
    (forall c w, c ∈ l -> f c = Some w -> (m <= w)%nat) ->
    base = m \/ (exists c, c ∈ l /\ f c = Some m) ->
    foldl (fun delim c => match f c with
                          | Some wdelim => Nat.min delim wdelim
                          | None => delim
                          end) base l = m.
Proof.
  induction l as [| c l IH]; intros base Hle Hall Hex; simpl.
  - destruct Hex as [-> | (c & Hc & _)]; [reflexivity |].
    by apply elem_of_nil in Hc.
  - apply IH.
    + destruct (f c) as [w |] eqn:F; [| exact Hle].
      specialize (Hall c w (list_elem_of_here _ _) F). lia.
    + intros c' w Hc'. apply Hall. now apply list_elem_of_further.
    + destruct Hex as [-> | (c' & Hc' & F')].
      * left. destruct (f c) as [w |] eqn:F; [| reflexivity].
        specialize (Hall c w (list_elem_of_here _ _) F). lia.
      * apply elem_of_cons in Hc' as [-> | Hc'].
        -- left. rewrite F'. lia.
        -- right. eauto.
Qed.

Lemma splitnetloc_host (host rest : string) :
  str_forallb is_host_char host = true ->
  starts_component rest = true ->
  _splitnetloc ("//" +:+ host +:+ rest) 2 = (host, rest).
Proof.
  intros Hhost Hrest. unfold _splitnetloc.
  assert (Hfind : forall c, c ∈ ["/"; "?"; "#"]%char ->
            find_from c 2 ("//" +:+ host +:+ rest)
            = (fun i => (2 + (String.length host + i))%nat) <$> find c rest).
  { intros c Hc. unfold find_from.
    change (str_drop 2 ("//" +:+ host +:+ rest)) with (host +:+ rest).
    rewrite find_app_none.
    - now destruct (find c rest).
    - apply (find_none_forallb is_host_char); [| exact Hhost].
      intros x. apply host_char_not_delimiter.
      repeat (apply elem_of_cons in Hc as [-> | Hc]);
        [set_solver .. | by apply elem_of_nil in Hc]. }
  rewrite (foldl_min_delims
             (fun c => find_from c 2 ("//" +:+ host +:+ rest))
             ["/"; "?"; "#"]%char (2 + String.length host)).
  - replace (2 + String.length host - 2)%nat with (String.length host) by lia.
    change (str_drop 2 ("//" +:+ host +:+ rest)) with (host +:+ rest).
    change (str_drop (2 + String.length host) ("//" +:+ host +:+ rest))
      with (str_drop (String.length host) (host +:+ rest)).
    now rewrite take_app_length, drop_app_length.
  - change ("//" +:+ host +:+ rest) with (String "/" (String "/" (host +:+ rest))).
    simpl. rewrite length_app. lia.
  - intros c w Hc. rewrite (Hfind c Hc).
    destruct (find c rest); simpl; intros [= <-]. lia.
  - destruct rest as [| d rest'].
    + left. change ("//" +:+ host +:+ EmptyString)
        with (String "/" (String "/" (host +:+ EmptyString))).
      simpl. rewrite length_app. simpl. lia.
    + right. exists d. simpl in Hrest.
      assert (Hd : d ∈ ["/"; "?"; "#"]%char).
      { repeat (apply orb_true_iff in Hrest as [Hrest | Hrest]);
          apply Ascii.eqb_eq in Hrest; subst; set_solver. }
      split; [exact Hd |]. rewrite (Hfind d Hd). simpl.
      rewrite Ascii.eqb_refl. simpl. f_equal. lia.
Qed.

Lemma split_scheme_prefix (c0 : ascii) (sch' rest : string) :
  is_ascii_alpha c0 = true ->
  str_forallb is_scheme_char sch' = true ->
  split_scheme (String c0 sch' +:+ String ":" rest)
  = (lower (String c0 sch'), rest).
Proof.
  intros Hc0 Hsch'.
  assert (Hsch : str_forallb is_scheme_char (String c0 sch') = true).
  { simpl. now rewrite (alpha_is_scheme_char c0 Hc0). }
  assert (Hfind : find ":" (String c0 sch' +:+ String ":" rest)
                  = Some (S (String.length sch'))).
  { rewrite find_app_none
      by (apply (find_none_forallb is_scheme_char);
          [apply scheme_char_not_colon | exact Hsch]).
    simpl. f_equal. lia. }
  unfold split_scheme. rewrite Hfind.
  change (String c0 sch' +:+ String ":" rest)
    with (String c0 (sch' +:+ String ":" rest)) at 1.
  cbv iota beta. rewrite Hc0.
  change (S (String.length sch')) with (String.length (String c0 sch')).
  rewrite take_app_length, Hsch. simpl andb. cbv iota.
  f_equal.
  change (str_drop (S (String.length (String c0 sch')))
            (String c0 sch' +:+ String ":" rest))
    with (str_drop (S (String.length sch')) (sch' +:+ String ":" rest)).
  clear. induction sch' as [| x a IH]; [reflexivity | exact IH].
Qed.

Lemma starts_component_remove_unsafe (rest : string) :
  starts_component rest = true -> starts_component (remove_unsafe rest) = true.
Proof.
  destruct rest as [| d rest]; [reflexivity |]. simpl. intros H.
  assert (Hd : d = "/"%char \/ d = "?"%char \/ d = "#"%char).
  { repeat (apply orb_true_iff in H as [H | H]);
      apply Ascii.eqb_eq in H; auto. }
  destruct Hd as [-> | [-> | ->]]; reflexivity.
Qed.

Lemma cleaned_scheme_host (c0 : ascii) (sch' host rest : string) :
  is_ascii_alpha c0 = true ->
  str_forallb is_scheme_char sch' = true ->
  str_forallb is_host_char host = true ->
  cleaned (String c0 sch' +:+ "://" +:+ host +:+ rest)
  = String c0 sch' +:+ String ":" ("//" +:+ host +:+ remove_unsafe rest).
Proof.
  intros Hc0 Hsch' Hhost. unfold cleaned.
  change (String c0 sch' +:+ "://" +:+ host +:+ rest)
    with (String c0 (sch' +:+ "://" +:+ host +:+ rest)).
  simpl lstrip_c0_or_space. rewrite (alpha_not_blank c0 Hc0).
  change (String c0 (sch' +:+ "://" +:+ host +:+ rest))
    with (String c0 sch' +:+ ("://" +:+ (host +:+ rest))).
  unfold remove_unsafe at 1. rewrite !filter_app.
  fold (remove_unsafe (String c0 sch')) (remove_unsafe "://")
       (remove_unsafe host) (remove_unsafe rest).
  rewrite (remove_unsafe_safe is_scheme_char (String c0 sch') scheme_char_safe)
    by (simpl; now rewrite (alpha_is_scheme_char c0 Hc0)).
  rewrite (remove_unsafe_safe is_host_char host host_char_safe Hhost).
  reflexivity.
Qed.

Lemma urlsplit_scheme_host check_host check_nfkc (c0 : ascii)
    (sch' host rest : string) :
  is_ascii_alpha c0 = true ->
  str_forallb is_scheme_char sch' = true ->
  host <> EmptyString ->
  str_forallb is_host_char host = true ->
  starts_component rest = true ->
  exists r,
    urlsplit check_host check_nfkc (String c0 sch' +:+ "://" +:+ host +:+ rest)
    = Ret r
    /\ scheme r = lower (String c0 sch') /\ netloc r = host.
Proof.
  intros Hc0 Hsch' Hne Hhost Hrest.
  set (uri := String c0 sch' +:+ "://" +:+ host +:+ rest).
  unfold urlsplit. fold (cleaned uri).
  change (match find ":" (cleaned uri) with
          | Some (S i') =>
              match cleaned uri with
              | String c _ =>
                  if is_ascii_alpha c
                     && str_forallb is_scheme_char (str_take (S i') (cleaned uri))
                  then (lower (str_take (S i') (cleaned uri)),
                        str_drop (S (S i')) (cleaned uri))
                  else (EmptyString, cleaned uri)
              | EmptyString => (EmptyString, cleaned uri)
              end
          | _ => (EmptyString, cleaned uri)
          end) with (split_scheme (cleaned uri)).
  unfold uri.
  rewrite (cleaned_scheme_host c0 sch' host rest Hc0 Hsch' Hhost).
  rewrite (split_scheme_prefix c0 sch' _ Hc0 Hsch').
  cbv iota beta.
  change (String.eqb (str_take 2 ("//" +:+ host +:+ remove_unsafe rest)) "//")
    with true.
  cbv iota.
  rewrite (splitnetloc_host host (remove_unsafe rest) Hhost
             (starts_component_remove_unsafe rest Hrest)).
  assert (Hnb : forall b, b ∈ ["["; "]"]%char -> contains b host = false).
  { intros b Hb. unfold contains.
    rewrite (find_none_forallb is_host_char b host); [reflexivity | | exact Hhost].
    intros x. apply host_char_not_delimiter.
    repeat (apply elem_of_cons in Hb as [-> | Hb]);
      [set_solver .. | by apply elem_of_nil in Hb]. }
  rewrite (Hnb "["%char) by set_solver. rewrite (Hnb "]"%char) by set_solver.
  simpl andb. simpl orb. cbv iota.
  destruct (partition "#" (remove_unsafe rest)) as [[u1 f1] fr].
  destruct (partition "?" u1) as [[u2 f2] q].
  unfold _checknetloc.
  replace (isascii host) with true
    by (symmetry; unfold isascii; revert Hhost; apply forallb_impl;
        apply host_char_ascii).
  rewrite orb_true_r. eexists. split; [reflexivity |]. split; reflexivity.
Qed.

(** X18. Every string of the form scheme://host followed by nothing or by
    a path, query or fragment is accepted, whatever the scheme: the scheme
    starts with an ASCII letter and goes on with letters, digits, "+", "-"
    and "."; the host is a non-empty run of printable ASCII characters other
    than "/", "?", "#", "[" and "]". The parsed scheme is the lower-cased
    one and the network location is the host. *)
Theorem validate_uri_accepts_scheme_host check_host check_nfkc (c0 : ascii)
    (sch' host rest : string) (s : state) :
  is_ascii_alpha c0 = true ->
  str_forallb is_scheme_char sch' = true ->
  host <> EmptyString ->
  str_forallb is_host_char host = true ->
  starts_component rest = true ->
  (exists r,
      urlparse check_host check_nfkc
        (Some (String c0 sch' +:+ "://" +:+ host +:+ rest)) = Ret r
      /\ scheme r = lower (String c0 sch') /\ netloc r = host)
  /\ _validate_uri (urlparse check_host check_nfkc)
       (Some (String c0 sch' +:+ "://" +:+ host +:+ rest)) s
     = (Ret true, s).
Proof.
  intros Hc0 Hsch' Hne Hhost Hrest.
  destruct (urlsplit_scheme_host check_host check_nfkc c0 sch' host rest
              Hc0 Hsch' Hne Hhost Hrest) as (r0 & Hr0 & Hs & Hn).
  assert (Hparse : exists r,
             urlparse check_host check_nfkc
               (Some (String c0 sch' +:+ "://" +:+ host +:+ rest)) = Ret r
             /\ scheme r = lower (String c0 sch') /\ netloc r = host).
  { unfold urlparse. simpl default. rewrite Hr0.
    repeat case_match; eexists; (split; [reflexivity |]); simpl; auto. }
  split; [exact Hparse |].
  destruct Hparse as (r & Hr & Hrs & Hrn).
  rewrite validate_uri_run, Hr, Hrs, Hrn.
  destruct host; [congruence | reflexivity].
Qed.

(** *** The test module *)

Lemma init_valid_run up G (n : string) (gens : Z) (s : state) :
  has_scheme_and_netloc up (environ s !! LANGCHAIN_SERVE_URI) ->
  __init__ up G n gens s =
    G n gens
      (with_self s
         (with_api_endpoint (named (self s) n gens)
            (format_opt (environ s !! LANGCHAIN_SERVE_URI) +:+ "/invoke"))).
Proof.
  intros H. rewrite init_run.
  set (s1 := with_self _ _).
  rewrite <- (validate_uri_true up _ s1) in H.
  rewrite validate_uri_run in *.
  destruct (up (environ s !! LANGCHAIN_SERVE_URI)) as [r | e]; simpl in *;
    [| discriminate].
  destruct (truthy (scheme r) && truthy (netloc r)); [reflexivity | congruence].
Qed.

Lemma urlparse_test_uri check_host check_nfkc :
  has_scheme_and_netloc (urlparse check_host check_nfkc)
    (Some "http://127.0.0.1:8000").
Proof. eexists. split; [reflexivity |]. split; discriminate. Qed.

Lemma new_generator_under_fixture check_host check_nfkc G (s : state) :
  transparent G ->
  environ s !! LANGCHAIN_SERVE_URI = Some "http://127.0.0.1:8000" ->
  exists s',
    new_generator (urlparse check_host check_nfkc) G "test-generator" s
    = (Ret tt, s')
    /\ self s' = test_generator /\ environ s' = environ s.
Proof.
  intros HG Henv. unfold new_generator.
  rewrite init_valid_run
    by (simpl; rewrite Henv; apply urlparse_test_uri).
  simpl environ. rewrite Henv.
  destruct (HG "test-generator" default_generations
              (with_self (with_self s blank)
                 (with_api_endpoint
                    (named (self (with_self s blank)) "test-generator"
                       default_generations)
                    (format_opt (Some "http://127.0.0.1:8000") +:+ "/invoke"))))
    as (s' & Hrun & Hself & Hen).
  exists s'. split; [exact Hrun |]. split; [exact Hself | exact Hen].
Qed.

Lemma fixture_sets_uri (s : state) :
  environ (snd (os_environ_set "LANGCHAIN_SERVE_URI" "http://127.0.0.1:8000" s))
    !! LANGCHAIN_SERVE_URI
  = Some "http://127.0.0.1:8000".
Proof. simpl. apply lookup_insert_eq. Qed.

(** X19. The fixture [set_env_vars] does not restore the environment: when
    the test itself leaves the environment alone, [LANGCHAIN_SERVE_URI] is
    unset afterwards whatever it held before, and every other variable is as
    it was. *)
Theorem fixture_unsets_variable (test : Test) (s : state) :
  (forall s1, environ (snd (test s1)) = environ s1) ->
  environ (snd (set_env_vars test s)) = delete LANGCHAIN_SERVE_URI (environ s)
  /\ environ (snd (set_env_vars test s)) !! LANGCHAIN_SERVE_URI = None
  /\ forall key, key <> LANGCHAIN_SERVE_URI ->
       environ (snd (set_env_vars test s)) !! key = environ s !! key.
Proof.
  intros Htest.
  assert (E : environ (snd (set_env_vars test s))
              = delete LANGCHAIN_SERVE_URI (environ s)).
  { unfold set_env_vars.
    specialize (Htest (snd (os_environ_set "LANGCHAIN_SERVE_URI"
                              "http://127.0.0.1:8000" s))).
    destruct (test _) as [v s2]. simpl in *. rewrite Htest.
    apply delete_insert_eq. }
  rewrite E. split; [reflexivity |]. split.
  - apply lookup_delete_eq.
  - intros key Hkey. now apply lookup_delete_ne.
Qed.

(** X20. Under the fixture, [test_langchain_serve_generator_initialization]
    and [test_langchain_serve_generation] pass from every initial state,
    for every base-class initialiser that returns normally and leaves the
    instance and the environment alone. *)
Theorem construction_and_generation_tests_pass check_host check_nfkc G
    (s : state) :
  transparent G ->
  fst (test_langchain_serve_generator_initialization
         (urlparse check_host check_nfkc) G s) = Passed
  /\ fst (test_langchain_serve_generation
            (urlparse check_host check_nfkc) G s) = Passed.
Proof.
  intros HG.
  destruct (new_generator_under_fixture check_host check_nfkc G _ HG
              (fixture_sets_uri s)) as (s' & Hnew & Hself & _).
  split.
  - unfold test_langchain_serve_generator_initialization, set_env_vars,
      run_test, bind at 1.
    rewrite Hnew.
    unfold self_name, self_api_endpoint, read_attr, bind, get_self, ret,
      assert_that.
    do 3 (simpl; rewrite ?Hself). reflexivity.
  - unfold test_langchain_serve_generation, set_env_vars, run_test, bind at 1.
    rewrite Hnew. unfold bind at 1.
    rewrite (call_model_ok_status _ "Hello LangChain!" s'
               (test_request "Hello LangChain!") generated_text_response)
      by (rewrite ?Hself; first [reflexivity | unfold error_status; simpl; lia]).
    rewrite (process_response_object generated_text_response s'
               {[ "output" := VList [VStr "Generated text"] ]} eq_refl).
    reflexivity.
Qed.

(** X21. Under the same conditions [test_error_handling] and
    [test_bad_response_handling] fail: the first because the call returns
    [None] on a 500 instead of raising, so [pytest.raises] sees no
    exception; the second because the call returns the sentinel for the
    body [{}], which is not [None]. *)
Theorem error_and_bad_response_tests_fail check_host check_nfkc G
    (s : state) :
  transparent G ->
  fst (test_error_handling (urlparse check_host check_nfkc) G s)
  = Failed "DID NOT RAISE"
  /\ fst (test_bad_response_handling (urlparse check_host check_nfkc) G s)
     = Failed "assert output is None".
Proof.
  intros HG.
  destruct (new_generator_under_fixture check_host check_nfkc G _ HG
              (fixture_sets_uri s)) as (s' & Hnew & Hself & _).
  split.
  - unfold test_error_handling, set_env_vars, run_test, bind at 1.
    rewrite Hnew. unfold pytest_raises.
    rewrite (proj2 (call_model_error_run _ "This should raise an error" s'
                      (test_request "This should raise an error")
                      server_error_response
                      ltac:(rewrite Hself; reflexivity) eq_refl))
      by (simpl; lia).
    reflexivity.
  - unfold test_bad_response_handling, set_env_vars, run_test, bind at 1.
    rewrite Hnew. unfold bind at 1.
    rewrite (call_model_ok_status _ "This should not find output" s'
               (test_request "This should not find output")
               empty_object_response)
      by (rewrite ?Hself; first [reflexivity | unfold error_status; simpl; lia]).
    rewrite (process_response_object empty_object_response s' ∅ eq_refl).
    reflexivity.
Qed.

(** X22. [test_validate_uri] does not use the fixture, so its verdict is
    decided by the ambient environment: with [LANGCHAIN_SERVE_URI] unset or
    invalid it ends in the configuration error before its first assertion,
    in particular when it runs after a test that used the fixture; with a
    valid URI in the environment it passes. *)
Theorem validate_uri_test_needs_environment check_host check_nfkc G
    (s : state) :
  (~ has_scheme_and_netloc (urlparse check_host check_nfkc)
       (environ s !! LANGCHAIN_SERVE_URI) ->
   fst (test_validate_uri (urlparse check_host check_nfkc) G s)
   = Errored invalid_endpoint)
  /\ (forall test : Test,
        (forall s1, environ (snd (test s1)) = environ s1) ->
        fst (test_validate_uri (urlparse check_host check_nfkc) G
               (snd (set_env_vars test s)))
        = Errored invalid_endpoint)
  /\ (transparent G ->
      has_scheme_and_netloc (urlparse check_host check_nfkc)
        (environ s !! LANGCHAIN_SERVE_URI) ->
      fst (test_validate_uri (urlparse check_host check_nfkc) G s) = Passed).
Proof.
  assert (Hbad : forall s0,
            ~ has_scheme_and_netloc (urlparse check_host check_nfkc)
                (environ s0 !! LANGCHAIN_SERVE_URI) ->
            fst (test_validate_uri (urlparse check_host check_nfkc) G s0)
            = Errored invalid_endpoint).
  { intros s0 H. unfold test_validate_uri, run_test, bind at 1, new_generator.
    rewrite init_invalid_run by exact H. reflexivity. }
  split; [apply Hbad |]. split.
  - intros test Htest. apply Hbad.
    assert (E : environ (snd (set_env_vars test s)) !! LANGCHAIN_SERVE_URI
                = None).
    { unfold set_env_vars.
      specialize (Htest (snd (os_environ_set "LANGCHAIN_SERVE_URI"
                                "http://127.0.0.1:8000" s))).
      destruct (test _) as [v s2]. simpl in *. apply lookup_delete_eq. }
    rewrite E. apply urlparse_unset.
  - intros HG Hvalid.
    unfold test_validate_uri, run_test, bind at 1, new_generator.
    rewrite init_valid_run by exact Hvalid.
    match goal with |- context [G ?n ?g ?s0] =>
      destruct (HG n g s0) as (s' & -> & _ & _) end.
    unfold bind. rewrite !validate_uri_run. reflexivity.
Qed.

Lemma urlparse_cleaned check_host check_nfkc (u1 u2 : string) :
  cleaned u1 = cleaned u2 ->
  urlparse check_host check_nfkc (Some u1)
  = urlparse check_host check_nfkc (Some u2).
Proof.
  intros H. unfold urlparse. simpl default.
  now rewrite (urlsplit_cleaned _ _ u1 u2 H).
Qed.

(** X23. Validation strips leading blanks, construction does not: when the
    URI in the environment is an acceptable URI preceded by blanks,
    construction succeeds and [api_endpoint] is the raw string, blanks
    included, followed by "/invoke". *)
Theorem init_keeps_leading_blanks check_host check_nfkc G (n : string)
    (gens : Z) (env : gmap string string) (log : list log_event)
    (ws uri : string) :
  transparent G ->
  str_forallb is_blank ws = true ->
  has_scheme_and_netloc (urlparse check_host check_nfkc) (Some uri) ->
  env !! LANGCHAIN_SERVE_URI = Some (ws +:+ uri) ->
  exists g log',
    instantiate (urlparse check_host check_nfkc) G n gens env log
    = (Ret g, log')
    /\ api_endpoint g = Some ((ws +:+ uri) +:+ "/invoke").
Proof.
  intros HG Hws Hvalid Henv.
  assert (Hraw : has_scheme_and_netloc (urlparse check_host check_nfkc)
                   (Some (ws +:+ uri))).
  { unfold has_scheme_and_netloc.
    rewrite (urlparse_cleaned check_host check_nfkc (ws +:+ uri) uri)
      by (unfold cleaned; now rewrite lstrip_blank_prefix).
    exact Hvalid. }
  unfold instantiate.
  rewrite init_valid_run by (simpl; rewrite Henv; exact Hraw).
  simpl environ. rewrite Henv.
  match goal with |- context [G ?a ?b ?s0] =>
    destruct (HG a b s0) as (s' & -> & Hself & _) end.
  eexists _, _. split; [reflexivity |]. rewrite Hself. reflexivity.
Qed.

(** *** The further properties at concrete inputs *)

Lemma error_status_logged_once_witness :
  _call_model (requests_mock mocked_url server_error_response)
    "This should raise an error" test_state
  = (Ret VNone,
     log_append test_state
       (LogServerError "This should raise an error"
          (http_error "Server" server_error_response))).
Proof.
  apply (error_status_logged_once
           (requests_mock mocked_url server_error_response)
           "This should raise an error" test_state
           (test_request "This should raise an error") server_error_response).
  - reflexivity.
  - reflexivity.
  - simpl. lia.
Defined.

Lemma transport_failure_logged_once_witness :
  _call_model unreachable "Hello LangChain!" test_state
  = (Ret VNone,
     log_append test_state
       (LogRequestFailed (mkExn ConnectionError "Connection refused"))).
Proof.
  apply (transport_failure_logged_once unreachable "Hello LangChain!"
           test_state (test_request "Hello LangChain!")
           (mkExn ConnectionError "Connection refused"));
    reflexivity.
Defined.

Lemma foreign_exception_propagates_witness :
  _call_model leaking "Hello LangChain!" test_state
  = (Exc (mkExn ValueError "check_hostname requires server_hostname"),
     test_state).
Proof.
  apply (foreign_exception_propagates leaking "Hello LangChain!" test_state
           (test_request "Hello LangChain!")
           (mkExn ValueError "check_hostname requires server_hostname"));
    reflexivity.
Defined.

Lemma output_returned_silently_witness :
  _call_model (requests_mock mocked_url redirect_response)
    "Hello LangChain!" test_state
  = (Ret (VStr "moved"), test_state).
Proof.
  apply (output_returned_silently
           (requests_mock mocked_url redirect_response)
           "Hello LangChain!" test_state (test_request "Hello LangChain!")
           redirect_response {[ "output" := VStr "moved" ]} (VStr "moved")).
  - reflexivity.
  - reflexivity.
  - unfold error_status. simpl. lia.
  - reflexivity.
  - reflexivity.
  - discriminate.
Defined.

Lemma missing_output_logged_once_witness :
  _call_model (requests_mock mocked_url empty_object_response)
    "This should not find output" test_state
  = (Ret no_output_generated, log_append test_state (LogNoOutput (VDict ∅))).
Proof.
  apply (missing_output_logged_once
           (requests_mock mocked_url empty_object_response)
           "This should not find output" test_state
           (test_request "This should not find output")
           empty_object_response ∅).
  - reflexivity.
  - reflexivity.
  - unfold error_status. simpl. lia.
  - reflexivity.
  - left. reflexivity.
Defined.

Lemma undecodable_body_logged_once_witness :
  _call_model (requests_mock mocked_url undecodable_response)
    "Hello LangChain!" test_state
  = (Ret VNone,
     log_append test_state
       (LogJsonDecodeFailed "<html>"
          (mkExn RequestsJSONDecodeError
             "Expecting value: line 1 column 1 (char 0)"))).
Proof.
  apply (undecodable_body_logged_once
           (requests_mock mocked_url undecodable_response)
           "Hello LangChain!" test_state (test_request "Hello LangChain!")
           undecodable_response
           (mkExn RequestsJSONDecodeError
              "Expecting value: line 1 column 1 (char 0)")).
  - reflexivity.
  - reflexivity.
  - unfold error_status. simpl. lia.
  - reflexivity.
Defined.

Lemma scalar_body_logged_as_unexpected_witness :
  _call_model (requests_mock mocked_url null_response) "prompt" test_state
  = (Ret VNone,
     log_append test_state
       (LogUnexpected
          (mkExn TypeError "argument of type 'NoneType' is not iterable"))).
Proof.
  apply (scalar_body_logged_as_unexpected
           (requests_mock mocked_url null_response) "prompt" test_state
           (test_request "prompt") null_response VNone).
  - reflexivity.
  - reflexivity.
  - unfold error_status. simpl. lia.
  - reflexivity.
  - left. reflexivity.
Defined.

Lemma object_body_never_None_witness :
  exists v,
    fst (_call_model (requests_mock mocked_url empty_object_response)
           "This should not find output" test_state) = Ret v
    /\ v <> VNone.
Proof.
  apply (object_body_never_None
           (requests_mock mocked_url empty_object_response)
           "This should not find output" test_state
           (test_request "This should not find output")
           empty_object_response ∅).
  - reflexivity.
  - reflexivity.
  - unfold error_status. simpl. lia.
  - reflexivity.
Defined.

Lemma result_is_genuine_output_witness :
  exists r d,
    requests_mock mocked_url generated_text_response
      (test_request "Hello LangChain!") = Responds r
    /\ ~ error_status (status_code r)
    /\ json r = Ret (VDict d)
    /\ d !! "output" = Some (VList [VStr "Generated text"]).
Proof.
  apply (result_is_genuine_output
           (requests_mock mocked_url generated_text_response)
           "Hello LangChain!" test_state (test_request "Hello LangChain!")
           (VList [VStr "Generated text"])).
  - reflexivity.
  - reflexivity.
  - discriminate.
  - discriminate.
Defined.

Lemma init_sets_attributes_witness :
  test_generator
  = {| name := Some "test-generator";
       fullname := Some ("LangChain Serve LLM " +:+ "test-generator");
       generations := Some DEFAULT_GENERATIONS_QTY;
       api_endpoint :=
         Some (format_opt (test_environ !! LANGCHAIN_SERVE_URI) +:+ "/invoke");
       config_hash_attr := None |}.
Proof.
  apply (init_sets_attributes (urlparse accept_host accept_host)
           Generator__init__model "test-generator" DEFAULT_GENERATIONS_QTY
           test_environ [] [] test_generator).
  - intros n g s. reflexivity.
  - reflexivity.
Defined.

Lemma init_failure_skips_base_class_witness :
  fst (__init__ (urlparse accept_host accept_host) Generator__init__model
         "test-generator" DEFAULT_GENERATIONS_QTY
         {| environ := ∅; self := blank; logged := [] |})
  = Exc invalid_endpoint
  /\ api_endpoint
       (self (snd (__init__ (urlparse accept_host accept_host)
                     Generator__init__model "test-generator"
                     DEFAULT_GENERATIONS_QTY
                     {| environ := ∅; self := blank; logged := [] |})))
     = None.
Proof.
  pose proof (init_failure_skips_base_class
                (urlparse accept_host accept_host) Generator__init__model
                "test-generator" DEFAULT_GENERATIONS_QTY
                {| environ := ∅; self := blank; logged := [] |}
                (urlparse_unset accept_host accept_host))
    as (_ & H1 & _ & _ & _ & H5 & _).
  split; [exact H1 | exact H5].
Defined.

Lemma init_failure_log_witness :
  instantiate (urlparse accept_host accept_host) Generator__init__model
    "test-generator" DEFAULT_GENERATIONS_QTY bracket_environ []
  = (Exc invalid_endpoint,
     [LogUrlParsingError (mkExn ValueError "Invalid IPv6 URL")]).
Proof.
  apply (init_failure_log (urlparse accept_host accept_host)
           Generator__init__model "test-generator" DEFAULT_GENERATIONS_QTY
           bracket_environ []).
  intros (r & Hr & _). discriminate Hr.
Defined.

Lemma constructed_adapter_request_witness :
  exists uri body req,
    test_environ !! LANGCHAIN_SERVE_URI = Some uri
    /\ req = {| req_url := uri +:+ "/invoke?config_hash=default";
                req_headers := [("Content-Type", "application/json");
                                ("Accept", "application/json")];
                req_data := VDict body |}
    /\ body !! "input" = Some (VStr "Hello LangChain!")
    /\ body !! "config" = Some (VDict ∅)
    /\ body !! "kwargs" = Some (VDict ∅)
    /\ dom body = {[ "input"; "config"; "kwargs" ]}
    /\ (forall s, self s = test_generator ->
          build_request "Hello LangChain!" s = (Ret req, s))
    /\ (forall post s, self s = test_generator ->
          post_request post "Hello LangChain!" s
          = match post req with
            | Raises e => ((None, Exc e), s)
            | Responds r => ((Some r, raise_for_status r), s)
            end)
    /\ (forall post post' s, self s = test_generator -> post req = post' req ->
          _call_model post "Hello LangChain!" s
          = _call_model post' "Hello LangChain!" s).
Proof.
  apply (constructed_adapter_request accept_host accept_host
           Generator__init__model "test-generator" DEFAULT_GENERATIONS_QTY
           test_environ [] [] test_generator "Hello LangChain!").
  - intros n g s. reflexivity.
  - reflexivity.
Defined.

Lemma validate_uri_ignores_blanks_witness :
  _validate_uri (urlparse accept_host accept_host)
    (Some ("  " +:+ "http://127.0.0.1:8000")) test_state
  = _validate_uri (urlparse accept_host accept_host)
      (Some "http://127.0.0.1:8000") test_state.
Proof.
  apply (proj1 (validate_uri_ignores_blanks accept_host accept_host test_state)
           "  " "http://127.0.0.1:8000").
  reflexivity.
Defined.

Lemma validate_uri_needs_colon_and_slash_witness :
  fst (_validate_uri (urlparse accept_host accept_host)
         (Some "localhost:8000") test_state) = Ret false.
Proof.
  apply (validate_uri_needs_colon_and_slash accept_host accept_host
           "localhost:8000" test_state).
  right. reflexivity.
Defined.

Lemma validate_uri_needs_leading_letter_witness :
  fst (_validate_uri (urlparse accept_host accept_host)
         (Some (" " +:+ "127.0.0.1:8000/invoke")) test_state) = Ret false.
Proof.
  apply (validate_uri_needs_leading_letter accept_host accept_host
           " " "1" "27.0.0.1:8000/invoke" test_state);
    reflexivity.
Defined.

Lemma validate_uri_accepts_scheme_host_witness :
  _validate_uri (urlparse accept_host accept_host)
    (Some ("http" +:+ "://" +:+ "127.0.0.1:8000" +:+ "/rag-chroma-private"))
    test_state
  = (Ret true, test_state).
Proof.
  apply (validate_uri_accepts_scheme_host accept_host accept_host
           "h" "ttp" "127.0.0.1:8000" "/rag-chroma-private" test_state).
  - reflexivity.
  - reflexivity.
  - discriminate.
  - reflexivity.
  - reflexivity.
Defined.

Lemma fixture_unsets_variable_witness :
  environ (snd (set_env_vars empty_test
                  {| environ := other_environ; self := blank; logged := [] |}))
    !! LANGCHAIN_SERVE_URI = None.
Proof.
  apply (fixture_unsets_variable empty_test
           {| environ := other_environ; self := blank; logged := [] |}).
  intros s1. reflexivity.
Defined.

Lemma construction_and_generation_tests_pass_witness :
  fst (test_langchain_serve_generator_initialization
         (urlparse accept_host accept_host) Generator__init__model
         {| environ := ∅; self := blank; logged := [] |}) = Passed
  /\ fst (test_langchain_serve_generation
            (urlparse accept_host accept_host) Generator__init__model
            {| environ := ∅; self := blank; logged := [] |}) = Passed.
Proof.
  apply (construction_and_generation_tests_pass accept_host accept_host
           Generator__init__model).
  intros n g s. exists s. split; [reflexivity |]. split; reflexivity.
Defined.

Lemma error_and_bad_response_tests_fail_witness :
  fst (test_error_handling (urlparse accept_host accept_host)
         Generator__init__model
         {| environ := ∅; self := blank; logged := [] |})
  = Failed "DID NOT RAISE"
  /\ fst (test_bad_response_handling (urlparse accept_host accept_host)
            Generator__init__model
            {| environ := ∅; self := blank; logged := [] |})
     = Failed "assert output is None".
Proof.
  apply (error_and_bad_response_tests_fail accept_host accept_host
           Generator__init__model).
  intros n g s. exists s. split; [reflexivity |]. split; reflexivity.
Defined.

Lemma validate_uri_test_needs_environment_witness :
  fst (test_validate_uri (urlparse accept_host accept_host)
         Generator__init__model
         {| environ := ∅; self := blank; logged := [] |})
  = Errored invalid_endpoint
  /\ fst (test_validate_uri (urlparse accept_host accept_host)
            Generator__init__model
            {| environ := test_environ; self := blank; logged := [] |})
     = Passed.
Proof.
  split.
  - apply (proj1 (validate_uri_test_needs_environment accept_host accept_host
                    Generator__init__model
                    {| environ := ∅; self := blank; logged := [] |})).
    intros (r & Hr & Hs & _). injection Hr as <-. now apply Hs.
  - apply (proj2 (proj2 (validate_uri_test_needs_environment
                           accept_host accept_host Generator__init__model
                           {| environ := test_environ; self := blank;
                              logged := [] |}))).
    + intros n g s. exists s. split; [reflexivity |]. split; reflexivity.
    + eexists. split; [reflexivity |]. split; discriminate.
Defined.

Lemma init_keeps_leading_blanks_witness :
  exists g log',
    instantiate (urlparse accept_host accept_host) Generator__init__model
      "test-generator" DEFAULT_GENERATIONS_QTY
      {[ LANGCHAIN_SERVE_URI := " " +:+ "http://127.0.0.1:8000" ]} []
    = (Ret g, log')
    /\ api_endpoint g = Some ((" " +:+ "http://127.0.0.1:8000") +:+ "/invoke").
Proof.
  apply (init_keeps_leading_blanks accept_host accept_host
           Generator__init__model "test-generator" DEFAULT_GENERATIONS_QTY
           {[ LANGCHAIN_SERVE_URI := " " +:+ "http://127.0.0.1:8000" ]} []
           " " "http://127.0.0.1:8000").
  - intros n g s. exists s. split; [reflexivity |]. split; reflexivity.
  - reflexivity.
  - eexists. split; [reflexivity |]. split; discriminate.
  - reflexivity.
Defined.
